(** * ScholarScan: the review form, the prompt compiler and the request cycle

    A shallow embedding of [App.tsx] (the form state and its handlers),
    [types.ts] (the data model) and [services/geminiService.ts]
    ([analyzeDocument]).  Strings are sequences of UTF-16 code units, as in
    the language of the sources; the text-generation service, the file
    reader and the wording of the [SyntaxError] of [JSON.parse] are the
    environment and are passed in explicitly. *)

From Stdlib Require Import String Ascii NArith ZArith Bool Lia List.
Import ListNotations.
Local Open Scope N_scope.
Local Open Scope list_scope.

(** ** Strings of the host language *)

Definition jsstring := list N.

(** Bytes of a literal of this file (UTF-8) to code units.  The literals of
    the sources stay inside the basic multilingual plane, so sequences of
    one, two and three bytes are all that is decoded. *)
Fixpoint utf16_of_utf8 (bs : list N) : jsstring :=
  match bs with
  | [] => []
  | b0 :: r0 =>
      if b0 <? 128 then b0 :: utf16_of_utf8 r0
      else
        match r0 with
        | [] => [b0]
        | b1 :: r1 =>
            if b0 <? 224 then ((b0 mod 32) * 64 + b1 mod 64) :: utf16_of_utf8 r1
            else
              match r1 with
              | [] => [b0; b1]
              | b2 :: r2 =>
                  ((b0 mod 16) * 4096 + (b1 mod 64) * 64 + b2 mod 64)
                    :: utf16_of_utf8 r2
              end
        end
  end.

Definition js (s : string) : jsstring :=
  utf16_of_utf8 (map N_of_ascii (list_ascii_of_string s)).

(** Literals are compared as written; they are decoded only on demand. *)
Strategy 100 [js].
Arguments js : simpl never.

Definition dq : jsstring := [34].
Definition nl : jsstring := [10].
Definition quoted (s : string) : jsstring := dq ++ js s ++ dq.

(** [a === b] on strings. *)
Fixpoint str_eqb (a b : jsstring) : bool :=
  match a, b with
  | [], [] => true
  | x :: a', y :: b' => (x =? y) && str_eqb a' b'
  | _, _ => false
  end.

(** A string in a condition: the empty string is falsy. *)
Definition truthy (s : jsstring) : bool :=
  match s with [] => false | _ :: _ => true end.

(** WhiteSpace and LineTerminator code points: what [trim] strips and what
    [\s] matches. *)
Definition isWhiteSpace (c : N) : bool :=
  ((9 <=? c) && (c <=? 13)) || (c =? 32) || (c =? 160) || (c =? 5760)
  || ((8192 <=? c) && (c <=? 8202)) || (c =? 8232) || (c =? 8233)
  || (c =? 8239) || (c =? 8287) || (c =? 12288) || (c =? 65279).

Fixpoint trimStart (s : jsstring) : jsstring :=
  match s with
  | [] => []
  | c :: r => if isWhiteSpace c then trimStart r else s
  end.

Definition trim (s : jsstring) : jsstring :=
  rev (trimStart (rev (trimStart s))).

(** [s.split(/\s+/)]: the scan keeps the token being read (reversed) and
    whether the last unit belonged to a separator run. *)
Fixpoint split_ws_from (acc : jsstring) (in_sep : bool) (s : jsstring)
  : list jsstring :=
  match s with
  | [] => [rev acc]
  | c :: r =>
      if isWhiteSpace c
      then if in_sep then split_ws_from acc true r
           else rev acc :: split_ws_from [] true r
      else split_ws_from (c :: acc) false r
  end.

Definition split_ws (s : jsstring) : list jsstring := split_ws_from [] false s.

(** [s.split(sep)] for a separator of one code unit. *)
Fixpoint split_on_from (sep : N) (acc : jsstring) (s : jsstring)
  : list jsstring :=
  match s with
  | [] => [rev acc]
  | c :: r =>
      if c =? sep then rev acc :: split_on_from sep [] r
      else split_on_from sep (c :: acc) r
  end.

Definition split_on (sep : N) (s : jsstring) : list jsstring :=
  split_on_from sep [] s.

(** [l.pop()] on a fresh array: the last element, [undefined] when empty. *)
Fixpoint pop (l : list jsstring) : option jsstring :=
  match l with
  | [] => None
  | [x] => Some x
  | _ :: r => pop r
  end.

(** [toLowerCase].  Only the Basic Latin letters are mapped.  The Unicode
    tables send no character outside Basic Latin to one of the letters of
    [pdf] and [docx] (the two that land in Basic Latin give [k] and [i]),
    and the result is only ever compared with those two words. *)
Definition lower_unit (c : N) : N :=
  if (65 <=? c) && (c <=? 90) then c + 32 else c.

Definition toLowerCase (s : jsstring) : jsstring := map lower_unit s.

Fixpoint startsWith (s p : jsstring) {struct p} : bool :=
  match p, s with
  | [], _ => true
  | _ :: _, [] => false
  | a :: p', b :: s' => (a =? b) && startsWith s' p'
  end.

(** [s.includes(p)] *)
Fixpoint includes (s p : jsstring) : bool :=
  startsWith s p || match s with [] => false | _ :: r => includes r p end.

(** [l.includes(x)] on an array of strings. *)
Definition arr_includes (l : list jsstring) (x : jsstring) : bool :=
  existsb (str_eqb x) l.

(** [l.join(sep)] *)
Fixpoint join (sep : jsstring) (l : list jsstring) : jsstring :=
  match l with
  | [] => []
  | [x] => x
  | x :: r => x ++ sep ++ join sep r
  end.

(** ** JSON: values, [JSON.stringify] of a list of names, [JSON.parse] *)

(** A number is kept as the exact decimal it was written as,
    [mantissa * 10 ^ exponent]; its rounding to a double is not modelled.
    An object is the list of its members in the order of the text; a later
    member of the same key overrides an earlier one on lookup. *)
#[local] Set Warnings "-register-all".
Inductive json :=
| JNull
| JBool (b : bool)
| JNumber (mantissa exponent : Z)
| JString (s : jsstring)
| JArray (elements : list json)
| JObject (members : list (jsstring * json)).

Fixpoint get_from (k : jsstring) (ms : list (jsstring * json)) (found : option json)
  : option json :=
  match ms with
  | [] => found
  | (k', v) :: r => get_from k r (if str_eqb k k' then Some v else found)
  end.

Definition get (k : jsstring) (ms : list (jsstring * json)) : option json :=
  get_from k ms None.

Definition hex_digit (d : N) : N := if d <? 10 then 48 + d else 87 + d.

Definition unicodeEscape (c : N) : jsstring :=
  [92; 117; hex_digit (c / 4096); hex_digit ((c / 256) mod 16);
   hex_digit ((c / 16) mod 16); hex_digit (c mod 16)].

Definition isLeadingSurrogate (c : N) : bool := (55296 <=? c) && (c <=? 56319).
Definition isTrailingSurrogate (c : N) : bool := (56320 <=? c) && (c <=? 57343).

Definition quote_unit (c : N) : jsstring :=
  if c =? 8 then [92; 98]
  else if c =? 9 then [92; 116]
  else if c =? 10 then [92; 110]
  else if c =? 12 then [92; 102]
  else if c =? 13 then [92; 114]
  else if c =? 34 then [92; 34]
  else if c =? 92 then [92; 92]
  else if (c <? 32) || isLeadingSurrogate c || isTrailingSurrogate c
       then unicodeEscape c
  else [c].

(** The body of QuoteJSONString: a surrogate pair goes through unchanged, a
    lone surrogate is escaped. *)
Fixpoint quote_units (s : jsstring) : jsstring :=
  match s with
  | [] => []
  | c :: r =>
      match r with
      | d :: r' =>
          if isLeadingSurrogate c && isTrailingSurrogate d
          then c :: d :: quote_units r'
          else quote_unit c ++ quote_units r
      | [] => quote_unit c
      end
  end.

Definition quoteJSONString (s : jsstring) : jsstring :=
  dq ++ quote_units s ++ dq.

(** [JSON.stringify(l)] for an array of strings. *)
Definition JSON_stringify (l : list jsstring) : jsstring :=
  [91] ++ join [44] (map quoteJSONString l) ++ [93].

(** *** The parser

    The grammar of ECMA-404.  Every recursive call is made after at least
    one code unit has been consumed, so the fuel [JSON_parse] hands over
    (one more than the length of the text) is never used up. *)

Definition isJSONWhiteSpace (c : N) : bool :=
  (c =? 32) || (c =? 9) || (c =? 10) || (c =? 13).

Fixpoint skip_ws (s : jsstring) : jsstring :=
  match s with
  | [] => []
  | c :: r => if isJSONWhiteSpace c then skip_ws r else s
  end.

Definition isDigit (c : N) : bool := (48 <=? c) && (c <=? 57).

Definition hex_value (c : N) : option N :=
  if isDigit c then Some (c - 48)
  else if (97 <=? c) && (c <=? 102) then Some (c - 87)
  else if (65 <=? c) && (c <=? 70) then Some (c - 55)
  else None.

Definition simple_escape (c : N) : option N :=
  if c =? 34 then Some 34
  else if c =? 92 then Some 92
  else if c =? 47 then Some 47
  else if c =? 98 then Some 8
  else if c =? 102 then Some 12
  else if c =? 110 then Some 10
  else if c =? 114 then Some 13
  else if c =? 116 then Some 9
  else None.

(** The characters of a string, after its opening quote, up to and
    including the closing one. *)
Fixpoint parse_chars (s : jsstring) : option (jsstring * jsstring) :=
  match s with
  | [] => None
  | c :: r =>
      if c =? 34 then Some ([], r)
      else if c <? 32 then None
      else if c =? 92 then
        match r with
        | [] => None
        | e :: r1 =>
            if e =? 117 then
              match r1 with
              | h1 :: h2 :: h3 :: h4 :: r2 =>
                  match hex_value h1, hex_value h2, hex_value h3, hex_value h4 with
                  | Some a, Some b, Some c', Some d =>
                      match parse_chars r2 with
                      | Some (t, rest) =>
                          Some ((a * 4096 + b * 256 + c' * 16 + d) :: t, rest)
                      | None => None
                      end
                  | _, _, _, _ => None
                  end
              | _ => None
              end
            else
              match simple_escape e with
              | Some u =>
                  match parse_chars r1 with
                  | Some (t, rest) => Some (u :: t, rest)
                  | None => None
                  end
              | None => None
              end
        end
      else
        match parse_chars r with
        | Some (t, rest) => Some (c :: t, rest)
        | None => None
        end
  end.

(** A run of digits: their value so far, how many were read, the rest. *)
Fixpoint digits (acc : Z) (n : Z) (s : jsstring) : Z * Z * jsstring :=
  match s with
  | c :: r =>
      if isDigit c then digits (10 * acc + Z.of_N (c - 48))%Z (n + 1)%Z r
      else (acc, n, s)
  | [] => (acc, n, [])
  end.

(** An optional minus sign, an integer part without a leading zero (or a
    lone zero), an optional fraction, an optional exponent. *)
Definition parse_number (s : jsstring) : option (json * jsstring) :=
  let '(neg, s1) :=
    match s with
    | c :: r => if c =? 45 then (true, r) else (false, s)
    | [] => (false, s)
    end in
  let int_part :=
    match s1 with
    | c :: r =>
        if c =? 48 then Some (0%Z, r)
        else if isDigit c then let '(v, _, r') := digits 0 0 s1 in Some (v, r')
        else None
    | [] => None
    end in
  match int_part with
  | None => None
  | Some (i, s2) =>
      let frac :=
        match s2 with
        | c :: r =>
            if c =? 46 then
              let '(v, n, r') := digits i 0 r in
              if (n =? 0)%Z then None else Some (v, n, r')
            else Some (i, 0%Z, s2)
        | [] => Some (i, 0%Z, s2)
        end in
      match frac with
      | None => None
      | Some (m, fn, s3) =>
          let expo :=
            match s3 with
            | c :: r =>
                if (c =? 101) || (c =? 69) then
                  let '(eneg, r1) :=
                    match r with
                    | d :: r' =>
                        if d =? 45 then (true, r')
                        else if d =? 43 then (false, r')
                        else (false, r)
                    | [] => (false, r)
                    end in
                  let '(v, n, r2) := digits 0 0 r1 in
                  if (n =? 0)%Z then None
                  else Some (if eneg then (- v)%Z else v, r2)
                else Some (0%Z, s3)
            | [] => Some (0%Z, s3)
            end in
          match expo with
          | None => None
          | Some (e, s4) =>
              Some (JNumber (if neg then (- m)%Z else m) (e - fn)%Z, s4)
          end
      end
  end.

Definition literal (w : jsstring) (v : json) (s : jsstring)
  : option (json * jsstring) :=
  if startsWith s w then Some (v, skipn (length w) s) else None.

Fixpoint parse_value (fuel : nat) (s : jsstring) : option (json * jsstring) :=
  match fuel with
  | O => None
  | S f =>
      match skip_ws s with
      | [] => None
      | c :: r =>
          if c =? 123 then
            match skip_ws r with
            | 125 :: r' => Some (JObject [], r')
            | _ =>
                match parse_members f r with
                | Some (ms, r') => Some (JObject ms, r')
                | None => None
                end
            end
          else if c =? 91 then
            match skip_ws r with
            | 93 :: r' => Some (JArray [], r')
            | _ =>
                match parse_elements f r with
                | Some (vs, r') => Some (JArray vs, r')
                | None => None
                end
            end
          else if c =? 34 then
            match parse_chars r with
            | Some (t, r') => Some (JString t, r')
            | None => None
            end
          else if c =? 116 then literal (js "true") (JBool true) (c :: r)
          else if c =? 102 then literal (js "false") (JBool false) (c :: r)
          else if c =? 110 then literal (js "null") JNull (c :: r)
          else parse_number (c :: r)
      end
  end
with parse_members (fuel : nat) (s : jsstring)
  : option (list (jsstring * json) * jsstring) :=
  match fuel with
  | O => None
  | S f =>
      match skip_ws s with
      | 34 :: r =>
          match parse_chars r with
          | None => None
          | Some (k, r1) =>
              match skip_ws r1 with
              | 58 :: r2 =>
                  match parse_value f r2 with
                  | None => None
                  | Some (v, r3) =>
                      match skip_ws r3 with
                      | 44 :: r4 =>
                          match parse_members f r4 with
                          | Some (ms, r5) => Some ((k, v) :: ms, r5)
                          | None => None
                          end
                      | 125 :: r4 => Some ([(k, v)], r4)
                      | _ => None
                      end
                  end
              | _ => None
              end
          end
      | _ => None
      end
  end
with parse_elements (fuel : nat) (s : jsstring)
  : option (list json * jsstring) :=
  match fuel with
  | O => None
  | S f =>
      match parse_value f s with
      | None => None
      | Some (v, r1) =>
          match skip_ws r1 with
          | 44 :: r2 =>
              match parse_elements f r2 with
              | Some (vs, r3) => Some (v :: vs, r3)
              | None => None
              end
          | 93 :: r2 => Some ([v], r2)
          | _ => None
          end
      end
  end.

(** [JSON.parse(text)]: [None] stands for the [SyntaxError] it throws. *)
Definition JSON_parse (text : jsstring) : option json :=
  match parse_value (S (length text)) text with
  | Some (v, r) => match skip_ws r with [] => Some v | _ :: _ => None end
  | None => None
  end.

(** ** The data model ([types.ts]) *)

Inductive ReviewCategory := UNDERGRADUATE | JOURNAL.

Definition ReviewCategory_value (c : ReviewCategory) : jsstring :=
  match c with
  | UNDERGRADUATE => js "Undergraduate Essay"
  | JOURNAL => js "Journal Article"
  end.

Inductive CritiqueLevel := Supportive | Standard | Ruthless.

Definition CritiqueLevel_value (l : CritiqueLevel) : jsstring :=
  match l with
  | Supportive => js "Supportive"
  | Standard => js "Standard"
  | Ruthless => js "Ruthless"
  end.

Module CustomCriterion.
Record t := mk { id : jsstring; name : jsstring; keywords : jsstring }.
End CustomCriterion.

(** [FileData] without its [null]; the state holds an [option] of it.
    [data] is [None] when the data URL had no comma to split at. *)
Module FileData.
Record t := mk { mimeType : jsstring; data : option jsstring; name : jsstring }.
End FileData.

(** What the form reads of a browser [File]. *)
Module File.
Record t := mk { name : jsstring; size : N; type : jsstring }.
End File.

(** [feedback] holds whatever value [JSON.parse] returned; [JNull] is its
    [null]. *)
Record ReviewState := mkReviewState {
  isLoading : bool;
  error : option jsstring;
  feedback : json
}.

Definition AVAILABLE_CRITERIA : list jsstring :=
  [ js "Clarity";
    js "Argument Structure";
    js "Originality";
    js "Evidence Use";
    js "Grammar & Style";
    js "Referencing";
    js "Critical Thinking";
    js "Adherence to Academic Conventions" ].

(** ** The prompt compiler and the response schema ([geminiService.ts]) *)

Inductive SchemaType := OBJECT | ARRAY | STRING | INTEGER | NUMBER | BOOLEAN.

(** The fields of the service's [Schema] that bear on the shape of a value.
    [enum] and [required] are empty when absent. *)
Inductive Schema := mkSchema {
  type : SchemaType;
  properties : list (jsstring * Schema);
  items : option Schema;
  required : list jsstring;
  enum : list jsstring;
  description : option jsstring;
  minItems : option N;
  maxItems : option N
}.

Definition plain (t : SchemaType) : Schema :=
  mkSchema t [] None [] [] None None None.

(** The [responseSchema] literal, named level by level from the inside. *)
Definition feedbackPointSchema : Schema :=
  mkSchema OBJECT
    [ (js "point", plain STRING);
      (js "highlight", plain STRING);
      (js "general_feedback", plain BOOLEAN) ]
    None
    [js "point"]
    [] None None None.

Definition feedbackPointsSchema : Schema :=
  mkSchema ARRAY [] (Some feedbackPointSchema) [] [] None None None.

Definition criterionSchema : Schema :=
  mkSchema OBJECT
    [ (js "criterion", plain STRING);
      (js "score",
        mkSchema STRING [] None []
          [js "Excellent"; js "Good"; js "Fair"; js "Poor"]
          None None None);
      (js "visualBar",
        mkSchema STRING [] None [] []
          (Some (js "Visual representation of score, e.g. ■■■■□"))
          None None);
      (js "feedbackPoints", feedbackPointsSchema) ]
    None
    [js "criterion"; js "score"; js "visualBar"; js "feedbackPoints"]
    [] None None None.

Definition reviewsSchema : Schema :=
  mkSchema ARRAY [] (Some criterionSchema) [] [] None None None.

Definition responseSchema : Schema :=
  mkSchema OBJECT
    [ (js "summary", plain STRING);
      (js "overallScore", plain INTEGER);
      (js "reviews", reviewsSchema) ]
    None
    [js "summary"; js "overallScore"; js "reviews"]
    [] None None None.

Definition formattedCustomCriteria (customCriteria : list CustomCriterion.t)
  : jsstring :=
  join nl
    (map
      (fun c =>
        js "- " ++ CustomCriterion.name c
        ++ (if truthy (CustomCriterion.keywords c)
            then js " (Focus on: " ++ CustomCriterion.keywords c ++ js ")"
            else []))
      (filter (fun c => negb (str_eqb (trim (CustomCriterion.name c)) []))
        customCriteria)).

Definition allCriteriaNames (selectedCriteria : list jsstring)
    (customCriteria : list CustomCriterion.t) : list jsstring :=
  selectedCriteria
  ++ map CustomCriterion.name
       (filter (fun c => negb (str_eqb (trim (CustomCriterion.name c)) []))
         customCriteria).

Definition personaInstruction (category : ReviewCategory) (critiqueLevel : CritiqueLevel)
  : jsstring :=
  match category, critiqueLevel with
  | UNDERGRADUATE, Supportive =>
      concat
        [
          nl;
          js "      PATH A (UNDERGRADUATE) - LEVEL 1: THE MENTOR (Supportive)"; nl;
          js "      - Persona: A patient Teaching Assistant."; nl;
          js "      - Action: Point out errors gently (per Rubric) and immediately offer a simple, actionable suggestion for repair. Cite location."; nl;
          js "      - Tone: Encouraging, warm, and focused on learning."; nl;
          js "      "
        ]
  | UNDERGRADUATE, Standard =>
      concat
        [
          nl;
          js "      PATH A (UNDERGRADUATE) - LEVEL 2: THE GRADER (Standard)"; nl;
          js "      - Persona: A standard Professor grading a paper based on a fixed rubric."; nl;
          js "      - Action: Identify and state errors objectively. Differentiate between minor and major issues within the Rubric. Cite location."; nl;
          js "      - Tone: Professional, objective, and grade-focused."; nl;
          js "      "
        ]
  | UNDERGRADUATE, Ruthless =>
      concat
        [
          nl;
          js "      PATH A (UNDERGRADUATE) - LEVEL 3: THE STRICT EXAMINER (Ruthless)"; nl;
          js "      - Persona: A harsh Professor grading a final, high-stakes thesis."; nl;
          js "      - Action: Penalize every deviation from the standard in the Rubric. Use precise, critical language. Cite location for every single error or weakness found."; nl;
          js "      - Tone: Direct, dry, and unsparingly critical."; nl;
          js "      "
        ]
  | JOURNAL, Supportive =>
      concat
        [
          nl;
          js "      PATH B (JOURNAL ARTICLE) - LEVEL 1: THE CONSTRUCTIVE PEER (Supportive)"; nl;
          js "      - Persona: A friendly colleague doing a pre-submission review."; nl;
          js "      - Action: Frame critiques (per Rubric) as "; quoted "opportunities to strengthen the contribution."; js " Focus on clarity and selling the idea. Cite location."; nl;
          js "      - Tone: Collaborative and helpful."; nl;
          js "      "
        ]
  | JOURNAL, Standard =>
      concat
        [
          nl;
          js "      PATH B (JOURNAL ARTICLE) - LEVEL 2: THE PEER REVIEWER (Standard)"; nl;
          js "      - Persona: An anonymous reviewer for a standard, Q1/Q2 journal."; nl;
          js "      - Action: Evaluate if the paper meets the technical requirements of the Rubric (e.g., soundness of methodology, statistical relevance). Cite location."; nl;
          js "      - Tone: Formal, rigorous, and demanding of standard quality."; nl;
          js "      "
        ]
  | JOURNAL, Ruthless =>
      concat
        [
          nl;
          js "      PATH B (JOURNAL ARTICLE) - LEVEL 3: THE GATEKEEPER (Ruthless)"; nl;
          js "      - Persona: "; quoted "Reviewer #2"; js " for a high-impact journal."; nl;
          js "      - Action: Assume the paper should be rejected unless proven otherwise. Scrutinize the Rubric for fatal flaws, lack of novelty, or unsubstantiated claims. Every negative finding must be supported by an exact quote and location tag."; nl;
          js "      - Tone: Skeptical, abrasive, and focused on rejection."; nl;
          js "      "
        ]
  end.

Definition customRubricItems (formattedCustomCriteria : jsstring) : jsstring :=
  if truthy formattedCustomCriteria
  then js "Custom Rubric Items:" ++ nl ++ formattedCustomCriteria
  else [].

Definition systemInstruction (category : ReviewCategory) (critiqueLevel : CritiqueLevel)
    (allCriteriaNames : list jsstring)
    (formattedCustomCriteria personaInstruction : jsstring) : jsstring :=
  concat
    [
      nl;
      js "  You are an advanced academic reviewer who generates precise, evidence-based critique."; nl;
      js "  "; nl;
      js "  CURRENT CONFIGURATION:"; nl;
      js "  1. Doc_Type: "; dq; ReviewCategory_value category; dq; nl;
      js "  2. Critique_Level: "; dq; CritiqueLevel_value critiqueLevel; dq; nl;
      js "  3. Selected_Rubric: "; JSON_stringify allCriteriaNames; nl;
      js "  "; customRubricItems formattedCustomCriteria; nl;
      nl;
      js "  "; personaInstruction; nl;
      nl;
      js "  CORE CONSTRAINT: EVIDENCE & CITATION MANDATE (NON-NEGOTIABLE)"; nl;
      js "  1. MANDATORY CITATION: "; nl;
      js "     - Specific Issues: Every isolated error (e.g., incorrect citation, grammatical mistake) must be followed by a citation tag: [Page X] or [Section: Name] within the feedback text."; nl;
      js "     - General Issues: For comments on overall structure/tone, cite the most representative Page/Section."; nl;
      js "  2. SCOPE RESTRICTION:"; nl;
      js "     - You must ONLY review the specific items listed in the Selected_Rubric. Ignore all other aspects."; nl;
      js "     - Exception: If a flaw is fatal (makes paper unreadable/false), flag it separately."; nl;
      nl;
      js "  OUTPUT FORMAT INSTRUCTIONS:"; nl;
      js "  You must output a valid JSON object matching the schema below."; nl;
      js "  "; nl;
      js "  1. "; quoted "summary"; js ": Concise summary of content, strengths, and areas to improve (based on Persona tone)."; nl;
      js "  2. "; quoted "overallScore"; js ": Integer 0-100 reflecting the quality based on the Persona's strictness."; nl;
      js "  3. "; quoted "reviews"; js ": Array for criteria: "; join (js ", ") allCriteriaNames; js "."; nl;
      js "     - "; quoted "score"; js ": "; quoted "Excellent"; js ", "; quoted "Good"; js ", "; quoted "Fair"; js ", or "; quoted "Poor"; js "."; nl;
      js "     - "; quoted "visualBar"; js ": 5-char string "; quoted "■"; js " and "; quoted "□"; js " (e.g. "; quoted "■■■□□"; js ")."; nl;
      js "     - "; quoted "feedbackPoints"; js ": Exactly 3 distinct points per criterion."; nl;
      js "        - "; quoted "point"; js ": The critique text. MUST include the citation tag [Page X] if referring to specific errors."; nl;
      js "        - "; quoted "highlight"; js ": The specific text snippet from the document that justifies the critique (for the Evidence Mandate)."; nl;
      js "        - "; quoted "general_feedback"; js ": true if no specific snippet exists (but still cite section in "; quoted "point"; js ")."; nl;
      js "  "
    ].

(** Modelled from the spec: the validator of the round-trip property (a
    response checked against the schema) is no part of the sources.  It
    reads the schema keywords in the usual way: the type, every required
    key present, every listed property that is present valid, a string
    among the enumerated ones, every element valid against [items], and the
    length within [minItems] and [maxItems] when these are given. *)
Definition is_integer (m e : Z) : bool :=
  if (0 <=? e)%Z then true else (m mod 10 ^ (- e) =? 0)%Z.

Definition within (lo hi : option N) (n : N) : bool :=
  match lo with Some a => a <=? n | None => true end
  && match hi with Some b => n <=? b | None => true end.

Fixpoint validate (s : Schema) (v : json) {struct s} : bool :=
  match s with
  | mkSchema t props its req en _ lo hi =>
      match t, v with
      | OBJECT, JObject ms =>
          forallb (fun k => match get k ms with Some _ => true | None => false end) req
          && forallb
               (fun p =>
                 match get (fst p) ms with
                 | Some x => validate (snd p) x
                 | None => true
                 end)
               props
      | ARRAY, JArray vs =>
          within lo hi (N.of_nat (length vs))
          && match its with
             | Some it => forallb (validate it) vs
             | None => true
             end
      | STRING, JString x =>
          match en with [] => true | _ :: _ => existsb (str_eqb x) en end
      | INTEGER, JNumber m e => is_integer m e
      | NUMBER, JNumber _ _ => true
      | BOOLEAN, JBool _ => true
      | _, _ => false
      end
  end.

(** *** The request and the environment *)

Inductive Part :=
| inlineData (mimeType : jsstring) (data : option jsstring)
| text (t : jsstring).

Module Content.
Record t := mk { role : jsstring; parts : list Part }.
End Content.

(** The argument of [ai.models.generateContent]; the temperature 0.3 is
    written as the decimal [3 * 10 ^ -1]. *)
Module Request.
Record t := mk {
  model : jsstring;
  systemInstruction : jsstring;
  responseMimeType : jsstring;
  responseSchema : Schema;
  temperature : Z * Z;
  contents : list Content.t
}.
End Request.

(** How the awaited call ends: it throws a value whose [message] is a
    string or is missing, or it resolves to a response whose [text] is a
    string or is missing. *)
Inductive Completion :=
| throws (message : option jsstring)
| resolves (text : option jsstring).

(** The service, and the message the engine gives the [SyntaxError] of
    [JSON.parse] on a text. *)
Record Host := mkHost {
  generateContent : Request.t -> Completion;
  syntaxErrorMessage : jsstring -> jsstring
}.

Inductive Settled :=
| fulfilled (value : json)
| rejected (message : jsstring).

Definition parts (textContext : jsstring) (fileData : option FileData.t)
  : list Part :=
  match fileData with
  | Some f => [inlineData (FileData.mimeType f) (FileData.data f)]
  | None => []
  end
  ++ (if truthy textContext then [text textContext] else []).

Definition request (category : ReviewCategory) (selectedCriteria : list jsstring)
    (customCriteria : list CustomCriterion.t) (critiqueLevel : CritiqueLevel)
    (textContext : jsstring) (fileData : option FileData.t) : Request.t :=
  Request.mk (js "gemini-2.5-flash")
    (systemInstruction category critiqueLevel
       (allCriteriaNames selectedCriteria customCriteria)
       (formattedCustomCriteria customCriteria)
       (personaInstruction category critiqueLevel))
    (js "application/json")
    responseSchema
    (3, -1)%Z
    [Content.mk (js "user") (parts textContext fileData)].

(** The [catch] block: the message of the error thrown again. *)
Definition errorMessage (message : option jsstring) : jsstring :=
  match message with
  | Some m =>
      if truthy m && (includes m (js "Rpc failed") || includes m (js "xhr error"))
      then js "Connection error. The file may be too large or the format is not supported. Please try a smaller PDF (under 4MB) or plain text file."
      else if truthy m then m
      else js "An unexpected error occurred during analysis."
  | None => js "An unexpected error occurred during analysis."
  end.

(** [analyzeDocument]: the requests it sent, and how its promise settles. *)
Definition analyzeDocument (host : Host) (category : ReviewCategory)
    (selectedCriteria : list jsstring) (customCriteria : list CustomCriterion.t)
    (critiqueLevel : CritiqueLevel) (textContext : jsstring)
    (fileData : option FileData.t) : list Request.t * Settled :=
  match parts textContext fileData with
  | [] => ([], rejected (js "Please provide text or upload a document to review."))
  | _ :: _ =>
      let req :=
        request category selectedCriteria customCriteria critiqueLevel
          textContext fileData in
      ([req],
       match generateContent host req with
       | throws message => rejected (errorMessage message)
       | resolves response_text =>
           match response_text with
           | Some (c :: r) =>
               let jsonText := c :: r in
               match JSON_parse jsonText with
               | Some v => fulfilled v
               | None =>
                   rejected (errorMessage (Some (syntaxErrorMessage host jsonText)))
               end
           | _ =>
               rejected
                 (errorMessage (Some (js "No response generated from the model.")))
           end
       end)
  end.

(** ** The form ([App.tsx]) *)

Definition MAX_FILE_SIZE : N := 4 * 1024 * 1024.
Definition MAX_WORD_COUNT : N := 200.

(** The state hooks of [App].  [fileInputRef] is what a handler finds behind
    [fileInputRef.current]: the value of the file input element, or [None]
    for [null].  The handlers only ever write the value of an element that
    is there.  Mounting and unmounting the element is React's work between
    two handlers (the input belongs to the form branch of the page): no
    handler does it, and a run of handlers leaves the field as the last
    render set it ([setFileInputRef] and [session] below). *)
Record App := mkApp {
  category : ReviewCategory;
  critiqueLevel : CritiqueLevel;
  selectedCriteria : list jsstring;
  customCriteria : list CustomCriterion.t;
  textInput : jsstring;
  file : option FileData.t;
  isDragging : bool;
  reviewState : ReviewState;
  fileInputRef : option jsstring
}.

Definition blankCriteria : list CustomCriterion.t :=
  [ CustomCriterion.mk (js "1") [] []; CustomCriterion.mk (js "2") [] [] ].

Definition idle : ReviewState := mkReviewState false None JNull.

Definition initial (fileInput : option jsstring) : App :=
  mkApp UNDERGRADUATE Standard [] blankCriteria [] None false idle fileInput.

Definition setCategory (c : ReviewCategory) (st : App) : App :=
  mkApp c (critiqueLevel st) (selectedCriteria st) (customCriteria st)
    (textInput st) (file st) (isDragging st) (reviewState st) (fileInputRef st).

Definition setCritiqueLevel (l : CritiqueLevel) (st : App) : App :=
  mkApp (category st) l (selectedCriteria st) (customCriteria st)
    (textInput st) (file st) (isDragging st) (reviewState st) (fileInputRef st).

Definition setSelectedCriteria (f : list jsstring -> list jsstring) (st : App)
  : App :=
  mkApp (category st) (critiqueLevel st) (f (selectedCriteria st))
    (customCriteria st) (textInput st) (file st) (isDragging st)
    (reviewState st) (fileInputRef st).

Definition setCustomCriteria
    (f : list CustomCriterion.t -> list CustomCriterion.t) (st : App) : App :=
  mkApp (category st) (critiqueLevel st) (selectedCriteria st)
    (f (customCriteria st)) (textInput st) (file st) (isDragging st)
    (reviewState st) (fileInputRef st).

Definition setTextInput (t : jsstring) (st : App) : App :=
  mkApp (category st) (critiqueLevel st) (selectedCriteria st)
    (customCriteria st) t (file st) (isDragging st) (reviewState st)
    (fileInputRef st).

Definition setFile (f : option FileData.t) (st : App) : App :=
  mkApp (category st) (critiqueLevel st) (selectedCriteria st)
    (customCriteria st) (textInput st) f (isDragging st) (reviewState st)
    (fileInputRef st).

Definition setReviewState (f : ReviewState -> ReviewState) (st : App) : App :=
  mkApp (category st) (critiqueLevel st) (selectedCriteria st)
    (customCriteria st) (textInput st) (file st) (isDragging st)
    (f (reviewState st)) (fileInputRef st).

Definition setFileInputValue (v : jsstring) (st : App) : App :=
  mkApp (category st) (critiqueLevel st) (selectedCriteria st)
    (customCriteria st) (textInput st) (file st) (isDragging st)
    (reviewState st)
    (match fileInputRef st with Some _ => Some v | None => None end).

(** [{ ...prev, error: e }] *)
Definition with_error (e : option jsstring) (prev : ReviewState) : ReviewState :=
  mkReviewState (isLoading prev) e (feedback prev).

(** *** Upload *)

(** How the [FileReader] ends on a file: [onload] with the data URL, or
    [onerror]. *)
Inductive ReadOutcome :=
| onload (result : jsstring)
| onerror.

Definition ext_of (selectedFile : File.t) : option jsstring :=
  option_map toLowerCase (pop (split_on 46 (File.name selectedFile))).

Definition ext_is (ext : option jsstring) (w : jsstring) : bool :=
  match ext with Some e => str_eqb e w | None => false end.

(** [processFile]: the files handed to the reader, and the state once the
    reader is done. *)
Definition processFile (readAsDataURL : File.t -> ReadOutcome)
    (selectedFile : File.t) (st : App) : list File.t * App :=
  if MAX_FILE_SIZE <? File.size selectedFile then
    ([],
     setReviewState
       (with_error (Some (js "File size exceeds 4MB limit. Please try a smaller file.")))
       st)
  else
    let ext := ext_of selectedFile in
    let read (mimeType : jsstring) :=
      ([selectedFile],
       match readAsDataURL selectedFile with
       | onload base64String =>
           let base64Data := nth_error (split_on 44 base64String) 1 in
           setReviewState (with_error None)
             (setFile
                (Some (FileData.mk mimeType base64Data (File.name selectedFile)))
                st)
       | onerror =>
           setReviewState (with_error (Some (js "Failed to read file."))) st
       end) in
    let mimeType := File.type selectedFile in
    if ext_is ext (js "pdf") then read (js "application/pdf")
    else if ext_is ext (js "docx") then
      read (js "application/vnd.openxmlformats-officedocument.wordprocessingml.document")
    else
      ([],
       setReviewState
         (with_error (Some (js "Only PDF and DOCX files are supported."))) st).

Definition clearFile (st : App) : App :=
  setFileInputValue [] (setFile None st).

(** *** Criteria *)

Definition toggleCriterion (criterion : jsstring) (st : App) : App :=
  setSelectedCriteria
    (fun prev =>
      if arr_includes prev criterion
      then filter (fun c => negb (str_eqb c criterion)) prev
      else prev ++ [criterion])
    st.

Definition allSelected (st : App) : bool :=
  (0 <? N.of_nat (length AVAILABLE_CRITERIA))
  && forallb (fun c => arr_includes (selectedCriteria st) c) AVAILABLE_CRITERIA.

Definition toggleSelectAll (st : App) : App :=
  if allSelected st then setSelectedCriteria (fun _ => []) st
  else setSelectedCriteria (fun _ => AVAILABLE_CRITERIA) st.

Definition countWords (str : jsstring) : N :=
  let trimmed := trim str in
  if truthy trimmed then N.of_nat (length (split_ws trimmed)) else 0.

Inductive Field := name | keywords.

Definition has_id (id : jsstring) (c : CustomCriterion.t) : bool :=
  str_eqb (CustomCriterion.id c) id.

(** [{ ...c, [field]: value }] *)
Definition with_field (field : Field) (value : jsstring) (c : CustomCriterion.t)
  : CustomCriterion.t :=
  match field with
  | name => CustomCriterion.mk (CustomCriterion.id c) value (CustomCriterion.keywords c)
  | keywords => CustomCriterion.mk (CustomCriterion.id c) (CustomCriterion.name c) value
  end.

Definition handleCustomCriterionChange (id : jsstring) (field : Field)
    (value : jsstring) (st : App) : App :=
  let refused :=
    match field with
    | keywords =>
        let currentWords := countWords value in
        let prevValue :=
          match find (has_id id) (customCriteria st) with
          | Some c =>
              if truthy (CustomCriterion.keywords c)
              then CustomCriterion.keywords c else []
          | None => []
          end in
        let prevWords := countWords prevValue in
        (MAX_WORD_COUNT <? currentWords) && (prevWords <? currentWords)
    | name => false
    end in
  if refused then st
  else
    setCustomCriteria
      (map (fun c => if has_id id c then with_field field value c else c))
      st.

(** *** Review *)

Definition activeCustomCriteria (st : App) : list CustomCriterion.t :=
  filter (fun c => negb (str_eqb (trim (CustomCriterion.name c)) []))
    (customCriteria st).

(** What one run of [handleReview] leaves behind: the requests sent, the
    state shown while the call is awaited (if it got that far), and the
    state at the end. *)
Record Run := mkRun {
  calls : list Request.t;
  awaiting : option App;
  final : App
}.

Definition handleReview (host : Host) (st : App) : Run :=
  if negb (truthy (textInput st))
     && match file st with None => true | Some _ => false end
  then
    mkRun [] None
      (setReviewState
         (with_error (Some (js "Please upload a document or paste text to review.")))
         st)
  else
    let active := activeCustomCriteria st in
    if (N.of_nat (length (selectedCriteria st)) =? 0)
       && (N.of_nat (length active) =? 0)
    then
      mkRun [] None
        (setReviewState
           (with_error
              (Some (js "Please select at least one evaluation criterion or add a custom one.")))
           st)
    else
      let '(sent, outcome) :=
        analyzeDocument host (category st) (selectedCriteria st) active
          (critiqueLevel st) (textInput st) (file st) in
      mkRun sent
        (Some (setReviewState (fun _ => mkReviewState true None JNull) st))
        (setReviewState
           (fun _ =>
             match outcome with
             | fulfilled feedback => mkReviewState false None feedback
             | rejected message =>
                 mkReviewState false
                   (Some (if truthy message then message
                          else js "An unexpected error occurred during analysis."))
                   JNull
             end)
           st).

Definition reset (st : App) : App :=
  setCustomCriteria (fun _ => blankCriteria)
    (setCritiqueLevel Standard
       (setSelectedCriteria (fun _ => [])
          (clearFile
             (setTextInput []
                (setReviewState (fun _ => mkReviewState false None JNull) st))))).

(** * Vocabulary of the properties *)

(** Reads the fields of a state built by the setters, leaving the string
    literals alone. *)
Ltac fields :=
  cbv beta iota;
  cbn [reviewState error feedback isLoading file textInput category
       critiqueLevel selectedCriteria customCriteria isDragging fileInputRef
       setReviewState setFile setTextInput setCategory setCritiqueLevel
       setSelectedCriteria setCustomCriteria setFileInputValue with_error
       calls awaiting final fst snd].

Definition sizeError : jsstring :=
  js "File size exceeds 4MB limit. Please try a smaller file.".
Definition typeError : jsstring :=
  js "Only PDF and DOCX files are supported.".
Definition pdfType : jsstring := js "application/pdf".
Definition docxType : jsstring :=
  js "application/vnd.openxmlformats-officedocument.wordprocessingml.document".

(** A file is supported when its extension, lower-cased, is one of the two. *)
Definition supported (f : File.t) : bool :=
  ext_is (ext_of f) (js "pdf") || ext_is (ext_of f) (js "docx").

Definition loaded (mimeType : jsstring) (rd : File.t -> ReadOutcome)
    (f : File.t) (st : App) : App :=
  match rd f with
  | onload url =>
      setReviewState (with_error None)
        (setFile
           (Some (FileData.mk mimeType (nth_error (split_on 44 url) 1) (File.name f)))
           st)
  | onerror => setReviewState (with_error (Some (js "Failed to read file."))) st
  end.

Definition sampleReader (f : File.t) : ReadOutcome :=
  onload (js "data:application/pdf;base64,JVBERi0xLjQK").

Definition contentError : jsstring :=
  js "Please upload a document or paste text to review.".
Definition criteriaError : jsstring :=
  js "Please select at least one evaluation criterion or add a custom one.".
Definition connectionError : jsstring :=
  js "Connection error. The file may be too large or the format is not supported. Please try a smaller PDF (under 4MB) or plain text file.".
Definition noResponseError : jsstring :=
  js "No response generated from the model.".
Definition unexpectedError : jsstring :=
  js "An unexpected error occurred during analysis.".

(** The two preconditions of a submission. *)
Definition hasContent (st : App) : Prop :=
  textInput st <> [] \/ file st <> None.

Definition hasCriteria (st : App) : Prop :=
  selectedCriteria st <> []
  \/ exists c, In c (customCriteria st) /\ trim (CustomCriterion.name c) <> [].

(** The request a state is submitted with. *)
Definition requestOf (st : App) : Request.t :=
  request (category st) (selectedCriteria st) (activeCustomCriteria st)
    (critiqueLevel st) (textInput st) (file st).

Definition settle (outcome : Settled) : ReviewState :=
  match outcome with
  | fulfilled v => mkReviewState false None v
  | rejected message =>
      mkReviewState false
        (Some (if truthy message then message else unexpectedError)) JNull
  end.

Definition sampleState : App :=
  setTextInput (js "The essay argues that tides are lunar.")
    (toggleCriterion (js "Clarity") (initial None)).

Definition silentHost : Host :=
  mkHost (fun _ => resolves None) (fun _ => js "Unexpected end of JSON input").

Definition throwingHost (m : jsstring) : Host :=
  mkHost (fun _ => throws (Some m)) (fun _ => js "Unexpected end of JSON input").

(** The required fields as the contract lists them: [summary],
    [overallScore] and [reviews] at the top, [criterion], [score],
    [visualBar] and [feedbackPoints] in every review, [point] in every
    feedback point. *)
Definition has (k : string) (v : json) : bool :=
  match v with
  | JObject ms => match get (js k) ms with Some _ => true | None => false end
  | _ => false
  end.

Definition each (p : json -> bool) (k : string) (v : json) : bool :=
  match v with
  | JObject ms =>
      match get (js k) ms with
      | Some (JArray vs) => forallb p vs
      | _ => false
      end
  | _ => false
  end.

Definition spec_requiredFields (v : json) : bool :=
  has "summary" v && has "overallScore" v && has "reviews" v
  && each
       (fun r =>
         has "criterion" r && has "score" r && has "visualBar" r
         && has "feedbackPoints" r
         && each (has "point") "feedbackPoints" r)
       "reviews" v.

(** A parsed value in a condition.  [JSON.parse] rounds a number to the
    nearest double, so [m * 10 ^ e] is falsy exactly when it rounds to zero:
    when [m] is zero or the magnitude is at most [2 ^ -1075], half the
    smallest double (the tie goes to the even neighbour, zero). *)
Definition json_truthy (v : json) : bool :=
  match v with
  | JNull => false
  | JBool b => b
  | JNumber m e =>
      negb (m =? 0)%Z
      && ((0 <=? e)%Z || (10 ^ (- e) <? Z.abs m * 2 ^ 1075)%Z)
  | JString s => truthy s
  | JArray _ | JObject _ => true
  end.

(** The branch the page takes, [!reviewState.feedback ? form : results]:
    [true] for the results branch.  This is the condition only; what the
    results view does with the feedback once it is rendered starts with
    [reviews_length] below. *)
Definition takesResultsBranch (st : App) : bool :=
  json_truthy (feedback (reviewState st)).

(** The outcome of reading a member: a [TypeError], or the value read,
    [None] for [undefined]. *)
Inductive Read := throwsTypeError | gives (v : option json).

(** [feedback.reviews] on a value [JSON.parse] gave: [null] has no members
    to read, an object gives its member, and the other values have no own
    member of that name. *)
Definition feedback_reviews (feedback : json) : Read :=
  match feedback with
  | JNull => throwsTypeError
  | JObject members => gives (get (js "reviews") members)
  | _ => gives None
  end.

(** [v.length], where [v] is what [feedback.reviews] gave. *)
Definition length_of (v : option json) : Read :=
  match v with
  | None | Some JNull => throwsTypeError
  | Some (JArray items) => gives (Some (JNumber (Z.of_nat (length items)) 0))
  | Some (JString s) => gives (Some (JNumber (Z.of_nat (length s)) 0))
  | Some (JObject members) => gives (get (js "length") members)
  | Some (JBool _) | Some (JNumber _ _) => gives None
  end.

(** [feedback.reviews.length], the first read the results view makes of the
    feedback ([ReviewResults.tsx], the count under the heading of the
    report), ahead of [feedback.reviews.map]. *)
Definition reviews_length (feedback : json) : Read :=
  match feedback_reviews feedback with
  | throwsTypeError => throwsTypeError
  | gives v => length_of v
  end.

(** [item.feedbackPoints && item.feedbackPoints.map(...)] of a result card:
    the array whose items the card lists, none when the member is missing
    or falsy.  A truthy member that is no array has no [map] to call. *)
Definition ResultCard_points (item : json) : Read :=
  match item with
  | JNull => throwsTypeError
  | JObject members =>
      match get (js "feedbackPoints") members with
      | None => gives None
      | Some v =>
          if json_truthy v
          then match v with
               | JArray _ => gives (Some v)
               | _ => throwsTypeError
               end
          else gives None
      end
  | _ => gives None
  end.

(** A response with a summary and a score and nothing else. *)
Definition incompleteText : jsstring :=
  js "{" ++ quoted "summary" ++ js ":" ++ quoted "Sound overall."
  ++ js "," ++ quoted "overallScore" ++ js ":80}".

Definition incompleteHost : Host :=
  mkHost (fun _ => resolves (Some incompleteText))
    (fun _ => js "Unexpected end of JSON input").

(** A response of the contract's shape: every review carries the feedback
    points it is given, however many. *)
Definition feedbackPoint (p : jsstring) : json :=
  JObject [ (js "point", JString p) ].

Definition criterionResult (r : jsstring * list jsstring) : json :=
  JObject
    [ (js "criterion", JString (fst r));
      (js "score", JString (js "Good"));
      (js "visualBar", JString (js "■■■■□"));
      (js "feedbackPoints", JArray (map feedbackPoint (snd r))) ].

Definition syntheticResponse (reviews : list (jsstring * list jsstring)) : json :=
  JObject
    [ (js "summary", JString (js "A clear and well supported essay."));
      (js "overallScore", JNumber 72 0);
      (js "reviews", JArray (map criterionResult reviews)) ].

Definition points (n : nat) : list jsstring :=
  repeat (js "The thesis is stated late. [Page 1]") n.

(** The list as specified: the selected built-in criteria in the order of
    the catalog, then the non-blank custom names in entry order. *)
Definition spec_criteriaNames (st : App) : list jsstring :=
  filter (arr_includes (selectedCriteria st)) AVAILABLE_CRITERIA
  ++ map CustomCriterion.name (activeCustomCriteria st).

(** [n] times the word [w], separated by single spaces. *)
Definition words (w : string) (n : nat) : jsstring :=
  join (js " ") (repeat (js w) n).

Definition edited (id : jsstring) (field : Field) (value : jsstring)
    (l : list CustomCriterion.t) : list CustomCriterion.t :=
  map (fun c => if has_id id c then with_field field value c else c) l.

(** A service whose response is no JSON text. *)
Definition garbledText : jsstring := js "Here is the review you asked for.".

Definition garbledHost : Host :=
  mkHost (fun _ => resolves (Some garbledText))
    (fun _ => js "Unexpected token 'H' is not valid JSON").

(** A form with text, nothing selected, and custom criteria whose names are
    white space. *)
Definition blankNamed : App :=
  handleCustomCriterionChange (js "2") name [9%N; 32%N]
    (handleCustomCriterionChange (js "1") name (js "   ")
       (setTextInput (js "The essay argues that tides are lunar.")
          (initial None))).

Definition setIsDragging (b : bool) (st : App) : App :=
  mkApp (category st) (critiqueLevel st) (selectedCriteria st)
    (customCriteria st) (textInput st) (file st) b (reviewState st)
    (fileInputRef st).

(** What React does to the ref between two handlers: [fileInputRef.current]
    becomes the file input mounted with the form, or [null] when the
    results take the place of the form. *)
Definition setFileInputRef (current : option jsstring) (st : App) : App :=
  mkApp (category st) (critiqueLevel st) (selectedCriteria st)
    (customCriteria st) (textInput st) (file st) (isDragging st)
    (reviewState st) current.

(** The states the handlers of the form lead to from its initial state. *)
Inductive reachable : App -> Prop :=
| by_mount fi : reachable (initial fi)
| by_setCategory c st : reachable st -> reachable (setCategory c st)
| by_setCritiqueLevel l st : reachable st -> reachable (setCritiqueLevel l st)
| by_toggleCriterion c st : reachable st -> reachable (toggleCriterion c st)
| by_toggleSelectAll st : reachable st -> reachable (toggleSelectAll st)
| by_handleCustomCriterionChange id field value st :
    reachable st -> reachable (handleCustomCriterionChange id field value st)
| by_setTextInput t st : reachable st -> reachable (setTextInput t st)
| by_setIsDragging b st : reachable st -> reachable (setIsDragging b st)
| by_processFile rd f st : reachable st -> reachable (snd (processFile rd f st))
| by_clearFile st : reachable st -> reachable (clearFile st)
| by_handleReview_awaiting host st st' :
    reachable st -> awaiting (handleReview host st) = Some st' -> reachable st'
| by_handleReview host st : reachable st -> reachable (final (handleReview host st))
| by_reset st : reachable st -> reachable (reset st).

Definition capped (l : list CustomCriterion.t) : Prop :=
  Forall (fun c => countWords (CustomCriterion.keywords c) <= MAX_WORD_COUNT) l.

(** * The rest of the form and of the results view *)

(** ** Upload by the file picker and by drag and drop ([App.tsx]) *)

(** [handleFileChange]: [files] is [event.target.files]. *)
Definition handleFileChange (readAsDataURL : File.t -> ReadOutcome)
    (files : list File.t) (st : App) : list File.t * App :=
  match files with
  | selectedFile :: _ => processFile readAsDataURL selectedFile st
  | [] => ([], st)
  end.

Definition handleDragOver (st : App) : App := setIsDragging true st.

Definition handleDragLeave (st : App) : App := setIsDragging false st.

(** [handleDrop]: [files] is [e.dataTransfer.files]. *)
Definition handleDrop (readAsDataURL : File.t -> ReadOutcome)
    (files : list File.t) (st : App) : list File.t * App :=
  match files with
  | droppedFile :: _ => processFile readAsDataURL droppedFile (setIsDragging false st)
  | [] => ([], setIsDragging false st)
  end.

(** ** The critique levels as the form shows them *)

Inductive Icon := Heart | Scale | Gavel.

Module LevelInfo.
Record t := mk { title : jsstring; desc : jsstring; icon : Icon; color : jsstring }.
End LevelInfo.

Definition getCritiqueLevelInfo (category : ReviewCategory) (level : CritiqueLevel)
  : LevelInfo.t :=
  match category with
  | UNDERGRADUATE =>
      match level with
      | Supportive =>
          LevelInfo.mk (js "The Mentor") (js "Encouraging & Warm") Heart
            (js "text-green-600 bg-green-50 border-green-200")
      | Standard =>
          LevelInfo.mk (js "The Grader") (js "Objective & Grade-Focused") Scale
            (js "text-blue-600 bg-blue-50 border-blue-200")
      | Ruthless =>
          LevelInfo.mk (js "The Strict Examiner") (js "Dry & Unsparing") Gavel
            (js "text-red-600 bg-red-50 border-red-200")
      end
  | JOURNAL =>
      match level with
      | Supportive =>
          LevelInfo.mk (js "Constructive Peer") (js "Collaborative & Helpful") Heart
            (js "text-green-600 bg-green-50 border-green-200")
      | Standard =>
          LevelInfo.mk (js "Peer Reviewer") (js "Formal & Rigorous") Scale
            (js "text-blue-600 bg-blue-50 border-blue-200")
      | Ruthless =>
          LevelInfo.mk (js "The Gatekeeper") (js "Skeptical & Abrasive") Gavel
            (js "text-red-600 bg-red-50 border-red-200")
      end
  end.

(** ** What the form shows of its state *)

(** The hint under the criteria:
    [selectedCriteria.length === 0 && customCriteria.every(c => !c.name.trim())]. *)
Definition criteriaHint (st : App) : bool :=
  (N.of_nat (length (selectedCriteria st)) =? 0)
  && forallb (fun c => negb (truthy (trim (CustomCriterion.name c))))
       (customCriteria st).



(** ** The overall score card ([ReviewResults.tsx]) *)

(** The label and the colours for an integral score. *)
Definition OverallScoreCard (score : Z) : jsstring * jsstring :=
  if (90 <=? score)%Z then
    (js "text-green-700 bg-green-50 border-green-200 ring-green-100", js "Exceptional")
  else if (80 <=? score)%Z then
    (js "text-blue-700 bg-blue-50 border-blue-200 ring-blue-100", js "Very Good")
  else if (70 <=? score)%Z then
    (js "text-sky-700 bg-sky-50 border-sky-200 ring-sky-100", js "Good")
  else if (60 <=? score)%Z then
    (js "text-yellow-700 bg-yellow-50 border-yellow-200 ring-yellow-100", js "Fair")
  else
    (js "text-red-700 bg-red-50 border-red-200 ring-red-100", js "Needs Improvement").

(** * Vocabulary of the further properties *)

(** The number of maximal runs of units that are not white space;
    [in_word] tells whether the unit before was part of such a run. *)
Fixpoint runs_from (in_word : bool) (s : jsstring) : N :=
  match s with
  | [] => 0
  | c :: r =>
      if isWhiteSpace c then runs_from false r
      else (if in_word then 0 else 1) + runs_from true r
  end.

Definition wordRuns (s : jsstring) : N := runs_from false s.

(** Where a scan of [s] by [split_ws_from] ends: in a separator or not. *)
Fixpoint ends_in_sep (in_sep : bool) (s : jsstring) : bool :=
  match s with
  | [] => in_sep
  | c :: r => ends_in_sep (isWhiteSpace c) r
  end.

Definition blank (s : jsstring) : bool := forallb isWhiteSpace s.

(** [toUpperCase] on Basic Latin, for texts written in it. *)
Definition upper_unit (c : N) : N :=
  if (97 <=? c) && (c <=? 122) then c - 32 else c.

Definition toUpperCase (s : jsstring) : jsstring := map upper_unit s.

(** The place of a label of the score card among the five, from the lowest
    band up; 5 for a text that is none of the five labels. *)
Definition bandRank (label : jsstring) : N :=
  if str_eqb label (js "Needs Improvement") then 0
  else if str_eqb label (js "Fair") then 1
  else if str_eqb label (js "Good") then 2
  else if str_eqb label (js "Very Good") then 3
  else if str_eqb label (js "Exceptional") then 4
  else 5.

(** Units that fit in sixteen bits. *)
Definition wellFormed (s : jsstring) : Prop := Forall (fun c => c < 65536) s.

(** The configuration and the text of a state. *)
Definition sameForm (a b : App) : Prop :=
  category a = category b
  /\ critiqueLevel a = critiqueLevel b
  /\ selectedCriteria a = selectedCriteria b
  /\ customCriteria a = customCriteria b
  /\ textInput a = textInput b.

(** The line of a custom criterion in the rubric. *)
Definition rubricLine (c : CustomCriterion.t) : jsstring :=
  js "- " ++ CustomCriterion.name c
  ++ (if truthy (CustomCriterion.keywords c)
      then js " (Focus on: " ++ CustomCriterion.keywords c ++ js ")"
      else []).

(** The states of a session: the form as mounted, and whatever the
    handlers make of it.  The reader and the service answer later, so what
    [processFile] and [handleReview] do to the file and to the review state
    is taken apart into their calls of [setFile] and [setReviewState], which
    may land after any other handler has run.  Between two handlers React
    may mount or unmount the file input. *)
Inductive session : App -> Prop :=
| on_mount fi : session (initial fi)
| on_setCategory c st : session st -> session (setCategory c st)
| on_setCritiqueLevel l st : session st -> session (setCritiqueLevel l st)
| on_toggleCriterion c st : session st -> session (toggleCriterion c st)
| on_toggleSelectAll st : session st -> session (toggleSelectAll st)
| on_handleCustomCriterionChange id field value st :
    session st -> session (handleCustomCriterionChange id field value st)
| on_setTextInput t st : session st -> session (setTextInput t st)
| on_setIsDragging b st : session st -> session (setIsDragging b st)
| on_setFile f st : session st -> session (setFile f st)
| on_setFileInputValue v st : session st -> session (setFileInputValue v st)
| on_setReviewState g st : session st -> session (setReviewState g st)
| on_reset st : session st -> session (reset st)
| on_render current st : session st -> session (setFileInputRef current st).

(** * Properties *)

(** ** Strings *)

Lemma str_eqb_eq (a b : jsstring) : str_eqb a b = true <-> a = b.
Proof.
  revert b; induction a as [|x a IH]; intros [|y b]; simpl; split;
    try congruence; try reflexivity.
  - intros H. apply andb_true_iff in H as [Hx Hr].
    apply N.eqb_eq in Hx. apply IH in Hr. congruence.
  - intros H. injection H as -> ->.
    rewrite N.eqb_refl. simpl. now apply IH.
Qed.

Lemma str_eqb_refl (a : jsstring) : str_eqb a a = true.
Proof. now apply str_eqb_eq. Qed.

Lemma truthy_false (s : jsstring) : truthy s = false <-> s = [].
Proof. destruct s; simpl; split; congruence. Qed.

Lemma truthy_true (s : jsstring) : truthy s = true <-> s <> [].
Proof. destruct s; simpl; split; congruence. Qed.

Lemma startsWith_app (p t : jsstring) : startsWith (p ++ t) p = true.
Proof.
  induction p as [|c p IH]; simpl.
  - reflexivity.
  - now rewrite N.eqb_refl.
Qed.

Lemma includes_prefix (s p : jsstring) :
  startsWith s p = true -> includes s p = true.
Proof. intros H. destruct s; simpl; now rewrite H. Qed.

Lemma includes_app (a p t : jsstring) : includes (a ++ p ++ t) p = true.
Proof.
  induction a as [|c a IH]; simpl.
  - apply includes_prefix, startsWith_app.
  - rewrite IH. apply orb_true_r.
Qed.

Lemma includes_concat (l1 mid l2 : list jsstring) :
  includes (concat (l1 ++ mid ++ l2)) (concat mid) = true.
Proof. rewrite !concat_app. apply includes_app. Qed.

(** The pieces [n], ..., [n + k - 1] of a text put together from pieces
    occur in it. *)
Lemma includes_concat_at (n k : nat) (l : list jsstring) :
  includes (concat l) (concat (firstn k (skipn n l))) = true.
Proof.
  rewrite <- (firstn_skipn n l) at 1.
  rewrite <- (firstn_skipn k (skipn n l)) at 1.
  apply includes_concat.
Qed.

Lemma includes_pieces (n k : nat) (l : list jsstring) (p : jsstring) :
  concat (firstn k (skipn n l)) = p -> includes (concat l) p = true.
Proof. intros <-. apply includes_concat_at. Qed.

(** ** The form: reset and upload *)

Lemma MAX_FILE_SIZE_bytes : MAX_FILE_SIZE = 4194304.
Proof. reflexivity. Qed.

Lemma processFile_oversized rd f st :
  MAX_FILE_SIZE < File.size f ->
  processFile rd f st = ([], setReviewState (with_error (Some sizeError)) st).
Proof.
  intros H. unfold processFile.
  apply N.ltb_lt in H. now rewrite H.
Qed.

Lemma processFile_unsupported rd f st :
  File.size f <= MAX_FILE_SIZE ->
  supported f = false ->
  processFile rd f st = ([], setReviewState (with_error (Some typeError)) st).
Proof.
  intros Hs Hx. unfold processFile.
  apply N.ltb_ge in Hs. rewrite Hs.
  apply orb_false_iff in Hx as [-> ->]. reflexivity.
Qed.

Lemma processFile_pdf rd f st :
  File.size f <= MAX_FILE_SIZE ->
  ext_is (ext_of f) (js "pdf") = true ->
  processFile rd f st = ([f], loaded pdfType rd f st).
Proof.
  intros Hs Hx. unfold processFile.
  apply N.ltb_ge in Hs. rewrite Hs, Hx. reflexivity.
Qed.

Lemma ext_is_functional e a b :
  ext_is e a = true -> ext_is e b = true -> a = b.
Proof.
  destruct e as [x|]; simpl; [|discriminate].
  intros Ha Hb. apply str_eqb_eq in Ha, Hb. congruence.
Qed.

Lemma processFile_docx rd f st :
  File.size f <= MAX_FILE_SIZE ->
  ext_is (ext_of f) (js "docx") = true ->
  processFile rd f st = ([f], loaded docxType rd f st).
Proof.
  intros Hs Hx. unfold processFile.
  apply N.ltb_ge in Hs. rewrite Hs.
  destruct (ext_is (ext_of f) (js "pdf")) eqn:Hp.
  - pose proof (ext_is_functional _ _ _ Hp Hx) as E. vm_compute in E. discriminate.
  - rewrite Hx. reflexivity.
Qed.

(** C9. Reset leaves the document category as it was and puts the text
    input, the file, the selected criteria, the custom criteria, the
    critique level, the feedback, the error and the loading flag back to the
    values they have in the initial state. *)
Theorem reset_keeps_category (st : App) (fi : option jsstring) :
  category (reset st) = category st
  /\ textInput (reset st) = textInput (initial fi)
  /\ file (reset st) = file (initial fi)
  /\ selectedCriteria (reset st) = selectedCriteria (initial fi)
  /\ customCriteria (reset st) = customCriteria (initial fi)
  /\ critiqueLevel (reset st) = critiqueLevel (initial fi)
  /\ reviewState (reset st) = reviewState (initial fi)
  /\ feedback (reviewState (reset st)) = JNull
  /\ error (reviewState (reset st)) = None
  /\ isLoading (reviewState (reset st)) = false.
Proof. repeat split. Qed.

(** C10. When [processFile] turns a file down, for its size or for its
    extension, nothing is handed to the reader and the new state is the old
    one with the error message set: the attached file, the text input, the
    configuration and the feedback are as before. *)
Theorem processFile_rejection_frame rd f st :
  MAX_FILE_SIZE < File.size f \/ supported f = false ->
  let '(reads, st') := processFile rd f st in
  reads = []
  /\ (error (reviewState st') = Some sizeError
      \/ error (reviewState st') = Some typeError)
  /\ st' = setReviewState (with_error (error (reviewState st'))) st
  /\ file st' = file st
  /\ textInput st' = textInput st
  /\ category st' = category st
  /\ critiqueLevel st' = critiqueLevel st
  /\ selectedCriteria st' = selectedCriteria st
  /\ customCriteria st' = customCriteria st
  /\ feedback (reviewState st') = feedback (reviewState st)
  /\ isLoading (reviewState st') = isLoading (reviewState st).
Proof.
  intros H.
  destruct (N.ltb_spec MAX_FILE_SIZE (File.size f)) as [Hbig|Hsmall].
  - rewrite processFile_oversized by assumption. fields.
    repeat split. left. reflexivity.
  - destruct H as [H|H]; [lia|].
    rewrite processFile_unsupported by assumption. fields.
    repeat split. right. reflexivity.
Qed.

Lemma processFile_rejection_frame_witness :
  let f := File.mk (js "notes.txt") 120 (js "application/pdf") in
  supported f = false
  /\ let '(reads, st') := processFile sampleReader f (initial None) in
     reads = []
     /\ (error (reviewState st') = Some sizeError
         \/ error (reviewState st') = Some typeError)
     /\ st' = setReviewState (with_error (error (reviewState st'))) (initial None)
     /\ file st' = file (initial None)
     /\ textInput st' = textInput (initial None)
     /\ category st' = category (initial None)
     /\ critiqueLevel st' = critiqueLevel (initial None)
     /\ selectedCriteria st' = selectedCriteria (initial None)
     /\ customCriteria st' = customCriteria (initial None)
     /\ feedback (reviewState st') = feedback (reviewState (initial None))
     /\ isLoading (reviewState st') = isLoading (reviewState (initial None)).
Proof.
  intros f.
  assert (H : supported f = false) by (vm_compute; reflexivity).
  split; [exact H|].
  exact (processFile_rejection_frame sampleReader f (initial None) (or_intror H)).
Defined.

Lemma str_eqb_neq (a b : jsstring) : str_eqb a b = false -> a <> b.
Proof.
  intros H E. apply str_eqb_eq in E. congruence.
Qed.


Lemma supported_cases f :
  supported f = true ->
  ext_is (ext_of f) (js "pdf") = true \/ ext_is (ext_of f) (js "docx") = true.
Proof. unfold supported. intros H. now apply orb_true_iff in H. Qed.







(** ** Submission *)

Lemma hasContent_guard st :
  hasContent st ->
  negb (truthy (textInput st))
  && match file st with None => true | Some _ => false end = false.
Proof.
  intros [H|H].
  - apply truthy_true in H. now rewrite H.
  - destruct (file st); [apply andb_false_r | congruence].
Qed.

Lemma hasContent_parts st :
  hasContent st -> parts (textInput st) (file st) <> [].
Proof.
  unfold parts. intros [H|H].
  - apply truthy_true in H. rewrite H. destruct (file st); discriminate.
  - destruct (file st); [discriminate | congruence].
Qed.

Lemma length_zero {A} (l : list A) : (N.of_nat (length l) =? 0) = true <-> l = [].
Proof.
  destruct l; simpl; split; try reflexivity; try discriminate.
Qed.

Lemma hasCriteria_guard st :
  hasCriteria st ->
  (N.of_nat (length (selectedCriteria st)) =? 0)
  && (N.of_nat (length (activeCustomCriteria st)) =? 0) = false.
Proof.
  intros [H|(c & Hin & Hc)].
  - destruct (selectedCriteria st); [congruence | reflexivity].
  - apply andb_false_iff. right.
    destruct (N.of_nat (length (activeCustomCriteria st)) =? 0) eqn:E;
      [|reflexivity].
    apply length_zero in E.
    assert (Hf : In c (activeCustomCriteria st)).
    { apply filter_In. split; [exact Hin|].
      destruct (str_eqb (trim (CustomCriterion.name c)) []) eqn:E';
        [apply str_eqb_eq in E'; congruence | reflexivity]. }
    rewrite E in Hf. destruct Hf.
Qed.

(** A submission that passes both checks sends exactly one request and ends
    in the state the outcome of the call settles. *)
Lemma handleReview_sends host st :
  hasContent st -> hasCriteria st ->
  handleReview host st
  = mkRun [requestOf st]
      (Some (setReviewState (fun _ => mkReviewState true None JNull) st))
      (setReviewState
         (fun _ =>
           settle
             (snd (analyzeDocument host (category st) (selectedCriteria st)
                     (activeCustomCriteria st) (critiqueLevel st) (textInput st)
                     (file st))))
         st)
  /\ analyzeDocument host (category st) (selectedCriteria st)
       (activeCustomCriteria st) (critiqueLevel st) (textInput st) (file st)
     = ([requestOf st],
        match generateContent host (requestOf st) with
        | throws message => rejected (errorMessage message)
        | resolves (Some (c :: r)) =>
            match JSON_parse (c :: r) with
            | Some v => fulfilled v
            | None => rejected (errorMessage (Some (syntaxErrorMessage host (c :: r))))
            end
        | resolves _ => rejected (errorMessage (Some noResponseError))
        end).
Proof.
  intros Hc Hk.
  assert (Ha : analyzeDocument host (category st) (selectedCriteria st)
       (activeCustomCriteria st) (critiqueLevel st) (textInput st) (file st)
     = ([requestOf st],
        match generateContent host (requestOf st) with
        | throws message => rejected (errorMessage message)
        | resolves (Some (c :: r)) =>
            match JSON_parse (c :: r) with
            | Some v => fulfilled v
            | None => rejected (errorMessage (Some (syntaxErrorMessage host (c :: r))))
            end
        | resolves _ => rejected (errorMessage (Some noResponseError))
        end)).
  { unfold analyzeDocument. pose proof (hasContent_parts st Hc) as Hp.
    destruct (parts (textInput st) (file st)) eqn:E; [congruence|].
    reflexivity. }
  split; [|exact Ha].
  unfold handleReview.
  rewrite (hasContent_guard st Hc), (hasCriteria_guard st Hk).
  rewrite Ha. cbv beta iota. cbn [snd]. reflexivity.
Qed.

(** C7. With an empty text input and no file, [handleReview] stops with the
    upload-or-paste message and sends nothing, whatever the criteria are.
    With content present, no built-in criterion selected and every custom
    name blank (empty or white space only), it stops with the
    select-a-criterion message and sends nothing.  In both cases no request
    is made, no loading state is passed through, the state ends with that
    message as its error and every other field as it was, and the two
    messages differ. *)
Theorem handleReview_preconditions host st :
  (textInput st = [] -> file st = None ->
     handleReview host st
     = mkRun [] None (setReviewState (with_error (Some contentError)) st))
  /\ (hasContent st ->
      selectedCriteria st = [] ->
      (forall c, In c (customCriteria st) -> trim (CustomCriterion.name c) = []) ->
      handleReview host st
      = mkRun [] None (setReviewState (with_error (Some criteriaError)) st))
  /\ (textInput st = [] -> file st = None ->
      calls (handleReview host st) = []
      /\ awaiting (handleReview host st) = None
      /\ error (reviewState (final (handleReview host st))) = Some contentError
      /\ final (handleReview host st)
         = mkApp (category st) (critiqueLevel st) (selectedCriteria st)
             (customCriteria st) (textInput st) (file st) (isDragging st)
             (mkReviewState (isLoading (reviewState st)) (Some contentError)
                (feedback (reviewState st)))
             (fileInputRef st))
  /\ (hasContent st ->
      selectedCriteria st = [] ->
      (forall c, In c (customCriteria st) -> trim (CustomCriterion.name c) = []) ->
      calls (handleReview host st) = []
      /\ awaiting (handleReview host st) = None
      /\ error (reviewState (final (handleReview host st))) = Some criteriaError
      /\ final (handleReview host st)
         = mkApp (category st) (critiqueLevel st) (selectedCriteria st)
             (customCriteria st) (textInput st) (file st) (isDragging st)
             (mkReviewState (isLoading (reviewState st)) (Some criteriaError)
                (feedback (reviewState st)))
             (fileInputRef st))
  /\ contentError <> criteriaError.
Proof.
  assert (H1 : textInput st = [] -> file st = None ->
     handleReview host st
     = mkRun [] None (setReviewState (with_error (Some contentError)) st)).
  { intros Ht Hf. unfold handleReview. rewrite Ht, Hf. reflexivity. }
  assert (H2 : hasContent st ->
      selectedCriteria st = [] ->
      (forall c, In c (customCriteria st) -> trim (CustomCriterion.name c) = []) ->
      handleReview host st
      = mkRun [] None (setReviewState (with_error (Some criteriaError)) st)).
  { intros Hc Hs Hb. unfold handleReview.
    rewrite (hasContent_guard st Hc), Hs.
    assert (Ha : activeCustomCriteria st = []).
    { unfold activeCustomCriteria.
      induction (customCriteria st) as [|c l IH]; [reflexivity|].
      cbn [filter]. rewrite (Hb c (or_introl eq_refl)), str_eqb_refl.
      cbn [negb]. apply IH. intros c' Hin. apply Hb. now right. }
    rewrite Ha. reflexivity. }
  split; [exact H1|]. split; [exact H2|]. split; [|split].
  - intros Ht Hf. rewrite (H1 Ht Hf). fields. repeat split; reflexivity.
  - intros Hc Hs Hb. rewrite (H2 Hc Hs Hb). fields. repeat split; reflexivity.
  - vm_compute. discriminate.
Qed.

Lemma sampleState_hasContent : hasContent sampleState.
Proof. left. vm_compute. discriminate. Qed.

Lemma sampleState_hasCriteria : hasCriteria sampleState.
Proof. left. vm_compute. discriminate. Qed.

Lemma blankNamed_hasContent : hasContent blankNamed.
Proof. left. vm_compute. discriminate. Qed.

Lemma blankNamed_names_blank c :
  In c (customCriteria blankNamed) -> trim (CustomCriterion.name c) = [].
Proof.
  intros Hin. vm_compute in Hin.
  destruct Hin as [<-|[<-|[]]]; vm_compute; reflexivity.
Qed.

Lemma handleReview_preconditions_witness :
  let empty := initial None in
  (textInput empty = [] /\ file empty = None /\ selectedCriteria empty = [])
  /\ calls (handleReview incompleteHost empty) = []
  /\ error (reviewState (final (handleReview incompleteHost empty)))
     = Some contentError
  /\ map CustomCriterion.name (customCriteria blankNamed)
     = [[32; 32; 32]; [9; 32]]
  /\ hasContent blankNamed
  /\ calls (handleReview incompleteHost blankNamed) = []
  /\ error (reviewState (final (handleReview incompleteHost blankNamed)))
     = Some criteriaError.
Proof.
  intros empty.
  pose proof (handleReview_preconditions incompleteHost empty)
    as (_ & _ & He & _ & _).
  pose proof (handleReview_preconditions incompleteHost blankNamed)
    as (_ & _ & _ & Hb & _).
  destruct (He eq_refl eq_refl) as (E1 & _ & E2 & _).
  destruct (Hb blankNamed_hasContent eq_refl blankNamed_names_blank)
    as (B1 & _ & B2 & _).
  split; [repeat split|]. split; [exact E1|]. split; [exact E2|].
  split; [vm_compute; reflexivity|]. split; [exact blankNamed_hasContent|].
  split; [exact B1 | exact B2].
Defined.

Lemma errorMessage_truthy m : truthy (errorMessage m) = true.
Proof.
  unfold errorMessage. destruct m as [m|]; [|vm_compute; reflexivity].
  destruct (truthy m) eqn:Hm; cbn [andb].
  - destruct (includes m (js "Rpc failed") || includes m (js "xhr error"));
      [vm_compute; reflexivity | exact Hm].
  - vm_compute. reflexivity.
Qed.

Lemma includes_truthy m p : includes m p = true -> p <> [] -> truthy m = true.
Proof.
  destruct m; [|reflexivity].
  destruct p; [congruence|]. simpl. discriminate.
Qed.

(** How a sent request ends, read off the final state. *)
Lemma handleReview_final host st :
  hasContent st -> hasCriteria st ->
  reviewState (final (handleReview host st))
  = settle
      match generateContent host (requestOf st) with
      | throws message => rejected (errorMessage message)
      | resolves (Some (c :: r)) =>
          match JSON_parse (c :: r) with
          | Some v => fulfilled v
          | None => rejected (errorMessage (Some (syntaxErrorMessage host (c :: r))))
          end
      | resolves _ => rejected (errorMessage (Some noResponseError))
      end.
Proof.
  intros Hc Hk.
  destruct (handleReview_sends host st Hc Hk) as [Hr Ha].
  rewrite Hr, Ha. reflexivity.
Qed.

Lemma settle_rejected m :
  settle (rejected (errorMessage m)) = mkReviewState false (Some (errorMessage m)) JNull.
Proof. unfold settle. now rewrite errorMessage_truthy. Qed.

(** The three outcomes of the [catch] block of [analyzeDocument]. *)
Lemma errorMessage_cases :
  (forall m,
      includes m (js "Rpc failed") = true \/ includes m (js "xhr error") = true ->
      errorMessage (Some m) = connectionError)
  /\ (forall m : jsstring,
      m <> [] ->
      includes m (js "Rpc failed") = false ->
      includes m (js "xhr error") = false ->
      errorMessage (Some m) = m)
  /\ errorMessage (@Some jsstring []) = unexpectedError
  /\ errorMessage None = unexpectedError.
Proof.
  split; [|split; [|split]].
  - intros m Hi. unfold errorMessage.
    assert (Ht : truthy m = true).
    { destruct Hi as [Hi|Hi]; apply (includes_truthy _ _ Hi);
        vm_compute; discriminate. }
    rewrite Ht. cbn [andb].
    replace (includes m (js "Rpc failed") || includes m (js "xhr error"))
      with true by (symmetry; apply orb_true_iff; exact Hi).
    reflexivity.
  - intros m Hm H1 H2. unfold errorMessage.
    apply truthy_true in Hm. rewrite Hm, H1, H2. reflexivity.
  - reflexivity.
  - reflexivity.
Qed.

(** C8. After a request that failed, the error shown is: the connection
    message (try a smaller file) when the message of what was thrown
    contains [Rpc failed] or [xhr error]; that message itself when it is
    non-empty and contains neither; and the no-response message when the
    response came without text or with an empty one.  A response whose text
    is no JSON fails with the message of the [SyntaxError] of [JSON.parse],
    classified in the same way; what is thrown without a message, or with
    an empty one, gives the unexpected-error message.  In each case the
    loading flag is off and no feedback is kept. *)
Theorem error_classification host st :
  hasContent st -> hasCriteria st ->
  let after := reviewState (final (handleReview host st)) in
  (forall m,
      generateContent host (requestOf st) = throws (Some m) ->
      includes m (js "Rpc failed") = true \/ includes m (js "xhr error") = true ->
      after = mkReviewState false (Some connectionError) JNull)
  /\ (forall m,
      generateContent host (requestOf st) = throws (Some m) ->
      m <> [] ->
      includes m (js "Rpc failed") = false ->
      includes m (js "xhr error") = false ->
      after = mkReviewState false (Some m) JNull)
  /\ (generateContent host (requestOf st) = resolves None
      \/ generateContent host (requestOf st) = resolves (Some []) ->
      after = mkReviewState false (Some noResponseError) JNull)
  /\ (forall jsonText,
      generateContent host (requestOf st) = resolves (Some jsonText) ->
      jsonText <> [] ->
      JSON_parse jsonText = None ->
      let m := syntaxErrorMessage host jsonText in
      (includes m (js "Rpc failed") = true \/ includes m (js "xhr error") = true ->
       after = mkReviewState false (Some connectionError) JNull)
      /\ (m <> [] ->
          includes m (js "Rpc failed") = false ->
          includes m (js "xhr error") = false ->
          after = mkReviewState false (Some m) JNull)
      /\ (m = [] -> after = mkReviewState false (Some unexpectedError) JNull))
  /\ (generateContent host (requestOf st) = throws None
      \/ generateContent host (requestOf st) = throws (Some []) ->
      after = mkReviewState false (Some unexpectedError) JNull).
Proof.
  intros Hc Hk after. subst after.
  rewrite (handleReview_final host st Hc Hk).
  destruct errorMessage_cases as (Hconn & Hverb & Hempty & Hnone).
  split; [|split; [|split; [|split]]].
  - intros m Hg Hi. now rewrite Hg, settle_rejected, (Hconn m Hi).
  - intros m Hg Hm H1 H2. now rewrite Hg, settle_rejected, (Hverb m Hm H1 H2).
  - intros [Hg|Hg]; rewrite Hg, settle_rejected;
      vm_compute; reflexivity.
  - intros jsonText Hg Ht Hp.
    destruct jsonText as [|c r]; [congruence|].
    rewrite Hg, Hp, settle_rejected. cbv zeta.
    generalize (syntaxErrorMessage host (c :: r)). intros m.
    split; [|split].
    + intros Hi. now rewrite (Hconn m Hi).
    + intros Hm H1 H2. now rewrite (Hverb m Hm H1 H2).
    + intros Hm. now rewrite Hm, Hempty.
  - intros [Hg|Hg]; rewrite Hg, settle_rejected;
      vm_compute; reflexivity.
Qed.

Lemma error_classification_witness :
  reviewState
    (final (handleReview (throwingHost (js "Rpc failed due to xhr error")) sampleState))
  = mkReviewState false (Some connectionError) JNull
  /\ reviewState
       (final (handleReview (throwingHost (js "API key not valid.")) sampleState))
     = mkReviewState false (Some (js "API key not valid.")) JNull
  /\ reviewState (final (handleReview silentHost sampleState))
     = mkReviewState false (Some noResponseError) JNull
  /\ (JSON_parse garbledText = None
      /\ reviewState (final (handleReview garbledHost sampleState))
         = mkReviewState false
             (Some (js "Unexpected token 'H' is not valid JSON")) JNull)
  /\ reviewState (final (handleReview (throwingHost []) sampleState))
     = mkReviewState false (Some unexpectedError) JNull.
Proof.
  assert (Hp : JSON_parse garbledText = None) by (vm_compute; reflexivity).
  split; [|split; [|split; [|split]]].
  - refine (proj1 (error_classification
                     (throwingHost (js "Rpc failed due to xhr error")) sampleState
                     sampleState_hasContent sampleState_hasCriteria)
              (js "Rpc failed due to xhr error") eq_refl _).
    left. vm_compute. reflexivity.
  - refine (proj1 (proj2 (error_classification
                            (throwingHost (js "API key not valid.")) sampleState
                            sampleState_hasContent sampleState_hasCriteria))
              (js "API key not valid.") eq_refl _ _ _).
    + vm_compute. discriminate.
    + vm_compute. reflexivity.
    + vm_compute. reflexivity.
  - refine (proj1 (proj2 (proj2 (error_classification silentHost sampleState
                            sampleState_hasContent sampleState_hasCriteria))) _).
    left. reflexivity.
  - split; [exact Hp|].
    refine (proj1 (proj2 (proj1 (proj2 (proj2 (proj2
              (error_classification garbledHost sampleState
                 sampleState_hasContent sampleState_hasCriteria))))
              garbledText eq_refl _ Hp)) _ _ _).
    + vm_compute. discriminate.
    + vm_compute. discriminate.
    + vm_compute. reflexivity.
    + vm_compute. reflexivity.
  - refine (proj2 (proj2 (proj2 (proj2 (error_classification
              (throwingHost []) sampleState
              sampleState_hasContent sampleState_hasCriteria)))) _).
    right. reflexivity.
Defined.

(** ** The response contract *)

(** Numbers in a condition: zero and what rounds to zero are falsy, the
    smallest double and anything larger are truthy. *)
Lemma json_truthy_numbers :
  json_truthy (JNumber 0 5) = false
  /\ json_truthy (JNumber 1 (-400)) = false
  /\ json_truthy (JNumber 2 (-324)) = false
  /\ json_truthy (JNumber 5 (-324)) = true
  /\ json_truthy (JNumber (-3) 0) = true
  /\ json_truthy (JNumber 1 400) = true.
Proof. vm_compute. repeat split. Qed.

(** C1: here the code departs from the claim.  A response that parses to
    an object without a [reviews] member is not refused as a parse or
    contract failure: the request ends in success, with no error and the
    parsed object as the feedback, and the page takes the results branch.
    There the first read the results view makes of the feedback,
    [feedback.reviews.length], throws.  The stored object lacks a field
    the claim lists as required, and it fails the schema that was sent to
    the service. *)
Theorem missing_reviews_end_in_success host st jsonText members :
  hasContent st -> hasCriteria st ->
  generateContent host (requestOf st) = resolves (Some jsonText) ->
  jsonText <> [] ->
  JSON_parse jsonText = Some (JObject members) ->
  get (js "reviews") members = None ->
  let after := final (handleReview host st) in
  calls (handleReview host st) = [requestOf st]
  /\ reviewState after = mkReviewState false None (JObject members)
  /\ takesResultsBranch after = true
  /\ reviews_length (feedback (reviewState after)) = throwsTypeError
  /\ spec_requiredFields (feedback (reviewState after)) = false
  /\ validate responseSchema (feedback (reviewState after)) = false.
Proof.
  intros Hc Hk Hg Ht Hp Hr after.
  assert (Hcalls : calls (handleReview host st) = [requestOf st])
    by now rewrite (proj1 (handleReview_sends host st Hc Hk)).
  assert (E : reviewState after = mkReviewState false None (JObject members)).
  { subst after. destruct jsonText as [|c r]; [congruence|].
    rewrite (handleReview_final host st Hc Hk), Hg, Hp. reflexivity. }
  split; [exact Hcalls|]. split; [exact E|].
  unfold takesResultsBranch. rewrite E. cbn [feedback].
  split; [reflexivity|]. split; [|split].
  - unfold reviews_length, feedback_reviews. now rewrite Hr.
  - unfold spec_requiredFields, has at 3. rewrite Hr.
    now rewrite andb_false_r.
  - unfold responseSchema. cbn [validate forallb]. rewrite Hr.
    now rewrite !andb_false_r.
Qed.

Lemma missing_reviews_end_in_success_witness :
  let after := final (handleReview incompleteHost sampleState) in
  incompleteText <> []
  /\ JSON_parse incompleteText
     = Some (JObject [ (js "summary", JString (js "Sound overall."));
                    (js "overallScore", JNumber 80 0) ])
  /\ calls (handleReview incompleteHost sampleState) = [requestOf sampleState]
  /\ reviewState after
     = mkReviewState false None
         (JObject [ (js "summary", JString (js "Sound overall."));
                    (js "overallScore", JNumber 80 0) ])
  /\ takesResultsBranch after = true
  /\ reviews_length (feedback (reviewState after)) = throwsTypeError
  /\ spec_requiredFields (feedback (reviewState after)) = false
  /\ validate responseSchema (feedback (reviewState after)) = false.
Proof.
  intros after.
  assert (Ht : incompleteText <> []) by (vm_compute; discriminate).
  assert (Hp : JSON_parse incompleteText
               = Some (JObject [ (js "summary", JString (js "Sound overall."));
                    (js "overallScore", JNumber 80 0) ]))
    by (vm_compute; reflexivity).
  split; [exact Ht|]. split; [exact Hp|].
  refine (missing_reviews_end_in_success incompleteHost sampleState
            incompleteText _ sampleState_hasContent sampleState_hasCriteria
            eq_refl Ht Hp _).
  vm_compute. reflexivity.
Defined.

(** The sibling read is guarded: a review without [feedbackPoints] is a
    card without points, where a feedback without [reviews] is a throw. *)
Lemma ResultCard_guards_missing_points members :
  get (js "feedbackPoints") members = None ->
  ResultCard_points (JObject members) = gives None.
Proof. intros H. unfold ResultCard_points. now rewrite H. Qed.

(** X15. When the call resolves to a non-empty text that parses, the
    request ends in success with the parsed value as the feedback, whatever
    members that value has: no field is checked on this side, and nothing
    is put in the place of a missing member.  A non-empty text that does
    not parse ends the request in failure, with no feedback. *)
Theorem parsed_response_is_the_feedback host st jsonText :
  hasContent st -> hasCriteria st ->
  generateContent host (requestOf st) = resolves (Some jsonText) ->
  jsonText <> [] ->
  (forall v, JSON_parse jsonText = Some v ->
     handleReview host st
     = mkRun [requestOf st]
         (Some (setReviewState (fun _ => mkReviewState true None JNull) st))
         (setReviewState (fun _ => mkReviewState false None v) st))
  /\ (JSON_parse jsonText = None ->
      reviewState (final (handleReview host st))
      = mkReviewState false
          (Some (errorMessage (Some (syntaxErrorMessage host jsonText)))) JNull).
Proof.
  intros Hc Hk Hg Ht. destruct jsonText as [|c r]; [congruence|]. split.
  - intros v Hp.
    destruct (handleReview_sends host st Hc Hk) as [Hr Ha].
    rewrite Hr, Ha, Hg, Hp. reflexivity.
  - intros Hp. rewrite (handleReview_final host st Hc Hk), Hg, Hp.
    apply settle_rejected.
Qed.

Lemma parsed_response_is_the_feedback_witness :
  incompleteText <> []
  /\ handleReview incompleteHost sampleState
     = mkRun [requestOf sampleState]
         (Some (setReviewState (fun _ => mkReviewState true None JNull) sampleState))
         (setReviewState
            (fun _ =>
              mkReviewState false None
                (JObject [ (js "summary", JString (js "Sound overall."));
                           (js "overallScore", JNumber 80 0) ]))
            sampleState).
Proof.
  assert (Ht : incompleteText <> []) by (vm_compute; discriminate).
  split; [exact Ht|].
  refine (proj1 (parsed_response_is_the_feedback incompleteHost sampleState
                   incompleteText sampleState_hasContent sampleState_hasCriteria
                   eq_refl Ht) _ _).
  vm_compute. reflexivity.
Defined.

Lemma validate_object props its req en d lo hi ms :
  validate (mkSchema OBJECT props its req en d lo hi) (JObject ms)
  = forallb (fun k => match get k ms with Some _ => true | None => false end) req
    && forallb
         (fun p =>
           match get (fst p) ms with
           | Some x => validate (snd p) x
           | None => true
           end)
         props.
Proof. reflexivity. Qed.

Lemma validate_array props it req en d lo hi vs :
  validate (mkSchema ARRAY props (Some it) req en d lo hi) (JArray vs)
  = within lo hi (N.of_nat (length vs)) && forallb (validate it) vs.
Proof. reflexivity. Qed.

Lemma validate_feedbackPoint p :
  validate feedbackPointSchema (feedbackPoint p) = true.
Proof. vm_compute. reflexivity. Qed.

Lemma validate_feedbackPoints ps :
  validate feedbackPointsSchema (JArray (map feedbackPoint ps)) = true.
Proof.
  unfold feedbackPointsSchema. rewrite validate_array.
  cbn [within andb].
  induction ps as [|p ps IH]; [reflexivity|].
  cbn [map forallb]. now rewrite validate_feedbackPoint.
Qed.

Lemma get_criterionResult a b c d :
  let ms := [ (js "criterion", a); (js "score", b); (js "visualBar", c);
              (js "feedbackPoints", d) ] in
  get (js "criterion") ms = Some a /\ get (js "score") ms = Some b
  /\ get (js "visualBar") ms = Some c /\ get (js "feedbackPoints") ms = Some d.
Proof. vm_compute. repeat split. Qed.

Lemma validate_criterionResult r :
  validate criterionSchema (criterionResult r) = true.
Proof.
  unfold criterionSchema, criterionResult. rewrite validate_object.
  cbn [forallb fst snd].
  match goal with
  | |- context [get _ [(_, ?a); (_, ?b); (_, ?c); (_, ?d)]] =>
      destruct (get_criterionResult a b c d) as (H1 & H2 & H3 & H4)
  end.
  cbv zeta in H1, H2, H3, H4. rewrite H1, H2, H3, H4.
  rewrite validate_feedbackPoints.
  vm_compute. reflexivity.
Qed.

Lemma validate_reviews rs :
  validate reviewsSchema (JArray (map criterionResult rs)) = true.
Proof.
  unfold reviewsSchema. rewrite validate_array.
  cbn [within andb].
  induction rs as [|r rs IH]; [reflexivity|].
  cbn [map forallb]. now rewrite validate_criterionResult.
Qed.

Lemma get_response a b c :
  let ms := [ (js "summary", a); (js "overallScore", b); (js "reviews", c) ] in
  get (js "summary") ms = Some a /\ get (js "overallScore") ms = Some b
  /\ get (js "reviews") ms = Some c.
Proof. vm_compute. repeat split. Qed.

(** C2, as stated, fails: responses with two and with four feedback points
    in a criterion are valid against the schema, as the one with three
    is. *)
Lemma two_and_four_points_valid :
  validate responseSchema (syntheticResponse [(js "Clarity", points 3)]) = true
  /\ validate responseSchema (syntheticResponse [(js "Clarity", points 2)]) = true
  /\ validate responseSchema (syntheticResponse [(js "Clarity", points 4)]) = true
  /\ minItems feedbackPointsSchema = None
  /\ maxItems feedbackPointsSchema = None.
Proof. vm_compute. repeat split. Qed.

(** C2, amended.  The schema is the same for every configuration and puts
    no bound on the number of feedback points: a response of the contract's
    shape is valid whatever the number of points in each of its criteria
    (three, but also two or four).  That there are to be three is said in
    the instruction text only. *)
Theorem schema_leaves_point_count_open
    (category : ReviewCategory) (selectedCriteria : list jsstring)
    (customCriteria : list CustomCriterion.t) (critiqueLevel : CritiqueLevel)
    (textContext : jsstring) (fileData : option FileData.t)
    (reviews : list (jsstring * list jsstring)) :
  Request.responseSchema
    (request category selectedCriteria customCriteria critiqueLevel textContext
       fileData)
  = responseSchema
  /\ validate responseSchema (syntheticResponse reviews) = true
  /\ includes
       (Request.systemInstruction
          (request category selectedCriteria customCriteria critiqueLevel
             textContext fileData))
       (quoted "feedbackPoints" ++ js ": Exactly 3 distinct points per criterion.")
     = true.
Proof.
  split; [reflexivity|]. split.
  - unfold responseSchema, syntheticResponse. rewrite validate_object.
    cbn [forallb fst snd].
    match goal with
    | |- context [get _ [(_, ?a); (_, ?b); (_, ?c)]] =>
        destruct (get_response a b c) as (H1 & H2 & H3)
    end.
    cbv zeta in H1, H2, H3. rewrite H1, H2, H3.
    rewrite validate_reviews. vm_compute. reflexivity.
  - unfold request, Request.systemInstruction, systemInstruction.
    apply (includes_pieces 86 2). cbn [skipn firstn concat].
    now rewrite app_nil_r.
Qed.

(** ** The criteria list of the instruction *)

Lemma filter_filter {A} (f : A -> bool) (l : list A) :
  filter f (filter f l) = filter f l.
Proof.
  induction l as [|x l IH]; [reflexivity|].
  cbn [filter]. destruct (f x) eqn:E; [|exact IH].
  cbn [filter]. now rewrite E, IH.
Qed.

Lemma allCriteriaNames_active st :
  allCriteriaNames (selectedCriteria st) (activeCustomCriteria st)
  = selectedCriteria st ++ map CustomCriterion.name (activeCustomCriteria st).
Proof.
  unfold allCriteriaNames, activeCustomCriteria. now rewrite filter_filter.
Qed.

(** C3, as stated, fails: with Originality selected first and Clarity
    second, the list of the instruction has them in that order, not in the
    order of the catalog. *)
Lemma selection_order_is_not_catalog_order :
  let st :=
    setTextInput (js "The essay argues that tides are lunar.")
      (toggleCriterion (js "Clarity")
         (toggleCriterion (js "Originality") (initial None))) in
  allCriteriaNames (selectedCriteria st) (activeCustomCriteria st)
  = [js "Originality"; js "Clarity"]
  /\ spec_criteriaNames st = [js "Clarity"; js "Originality"]
  /\ allCriteriaNames (selectedCriteria st) (activeCustomCriteria st)
     <> spec_criteriaNames st
  /\ includes (Request.systemInstruction (requestOf st))
       (js "Selected_Rubric: [" ++ quoted "Originality" ++ js "," ++ quoted "Clarity"
        ++ js "]")
     = true.
Proof.
  vm_compute. repeat split. discriminate.
Qed.

(** C3, amended.  The list embedded in the instruction of the request that
    is sent, both as the JSON array after [Selected_Rubric] and as the
    comma-separated list of the [reviews] line, is the selected built-in
    criteria in the order the selection holds them, followed by the names of
    the custom criteria whose name is not blank, in entry order.  The
    selection holds a criterion at the place it was toggled on: toggling
    one that is not selected appends it at the end, and select-all, used
    while not everything is selected, sets the order of the catalog. *)
Theorem criteria_names_in_selection_order host st :
  hasContent st -> hasCriteria st ->
  let names :=
    selectedCriteria st ++ map CustomCriterion.name (activeCustomCriteria st) in
  calls (handleReview host st) = [requestOf st]
  /\ includes (Request.systemInstruction (requestOf st))
       (js "  3. Selected_Rubric: " ++ JSON_stringify names) = true
  /\ includes (Request.systemInstruction (requestOf st))
       (js ": Array for criteria: " ++ join (js ", ") names ++ js ".") = true
  /\ (forall c, arr_includes (selectedCriteria st) c = false ->
        selectedCriteria (toggleCriterion c st) = selectedCriteria st ++ [c])
  /\ (allSelected st = false ->
        selectedCriteria (toggleSelectAll st) = AVAILABLE_CRITERIA).
Proof.
  intros Hc Hk names.
  destruct (handleReview_sends host st Hc Hk) as [Hr _].
  split; [now rewrite Hr|].
  split; [|split; [|split]].
  - unfold requestOf, request, Request.systemInstruction, systemInstruction.
    rewrite allCriteriaNames_active. fold names.
    apply (includes_pieces 17 2). cbn [skipn firstn concat].
    now rewrite app_nil_r.
  - unfold requestOf, request, Request.systemInstruction, systemInstruction.
    rewrite allCriteriaNames_active. fold names.
    apply (includes_pieces 59 3). cbn [skipn firstn concat].
    now rewrite app_nil_r.
  - intros c Hn. unfold toggleCriterion. fields. now rewrite Hn.
  - intros Hn. unfold toggleSelectAll. rewrite Hn. reflexivity.
Qed.

Lemma criteria_names_in_selection_order_witness :
  let st :=
    setTextInput (js "The essay argues that tides are lunar.")
      (toggleCriterion (js "Clarity")
         (toggleCriterion (js "Originality") (initial None))) in
  includes (Request.systemInstruction (requestOf st))
    (js "  3. Selected_Rubric: "
     ++ JSON_stringify
          (selectedCriteria st ++ map CustomCriterion.name (activeCustomCriteria st)))
  = true.
Proof.
  intros st.
  refine (proj1 (proj2 (criteria_names_in_selection_order silentHost st _ _))).
  - left. vm_compute. discriminate.
  - left. vm_compute. discriminate.
Defined.

(** ** The word cap of the keywords *)

Lemma prevValue_keywords (c : CustomCriterion.t) :
  (if truthy (CustomCriterion.keywords c) then CustomCriterion.keywords c else [])
  = CustomCriterion.keywords c.
Proof. now destruct (CustomCriterion.keywords c). Qed.

Lemma has_id_with_field id field value c :
  has_id id (with_field field value c) = has_id id c.
Proof. now destruct field. Qed.

Lemma find_edited id field value l :
  find (has_id id) (edited id field value l)
  = option_map (with_field field value) (find (has_id id) l).
Proof.
  induction l as [|c l IH]; [reflexivity|].
  cbn [edited map find]. destruct (has_id id c) eqn:E.
  - now rewrite has_id_with_field, E.
  - rewrite E. exact IH.
Qed.

Lemma keywords_refused id value st c :
  find (has_id id) (customCriteria st) = Some c ->
  MAX_WORD_COUNT < countWords value ->
  countWords (CustomCriterion.keywords c) < countWords value ->
  handleCustomCriterionChange id keywords value st = st.
Proof.
  intros Hf H1 H2. unfold handleCustomCriterionChange.
  rewrite Hf, prevValue_keywords.
  apply N.ltb_lt in H1, H2. now rewrite H1, H2.
Qed.

Lemma keywords_applied id value st c :
  find (has_id id) (customCriteria st) = Some c ->
  countWords value <= MAX_WORD_COUNT
  \/ countWords value <= countWords (CustomCriterion.keywords c) ->
  handleCustomCriterionChange id keywords value st
  = setCustomCriteria (edited id keywords value) st.
Proof.
  intros Hf H. unfold handleCustomCriterionChange.
  rewrite Hf, prevValue_keywords.
  replace ((MAX_WORD_COUNT <? countWords value)
           && (countWords (CustomCriterion.keywords c) <? countWords value))
    with false; [reflexivity|].
  symmetry. apply andb_false_iff.
  destruct H as [H|H]; [left|right]; now apply N.ltb_ge.
Qed.

(** The guard of an edit of the keywords, on any state: the edit is
    refused, and the state left as it was, exactly when the count of the
    new value is above 200 and above the count before the edit; otherwise
    it is applied.  So the count after an edit is at most 200 or at most
    the count before. *)
Lemma keywords_edit_cap id value st c :
  find (has_id id) (customCriteria st) = Some c ->
  let st' := handleCustomCriterionChange id keywords value st in
  let before := countWords (CustomCriterion.keywords c) in
  (200 < countWords value -> before < countWords value -> st' = st)
  /\ (countWords value <= 200 \/ countWords value <= before ->
      customCriteria st' = edited id keywords value (customCriteria st)
      /\ find (has_id id) (customCriteria st')
         = Some (CustomCriterion.mk (CustomCriterion.id c) (CustomCriterion.name c)
                   value))
  /\ (exists c',
        find (has_id id) (customCriteria st') = Some c'
        /\ (countWords (CustomCriterion.keywords c') <= 200
            \/ countWords (CustomCriterion.keywords c') <= before)).
Proof.
  intros Hf st' before.
  assert (Happ : countWords value <= 200 \/ countWords value <= before ->
      customCriteria st' = edited id keywords value (customCriteria st)
      /\ find (has_id id) (customCriteria st')
         = Some (CustomCriterion.mk (CustomCriterion.id c) (CustomCriterion.name c)
                   value)).
  { intros H. subst st'. rewrite (keywords_applied id value st c Hf H).
    fields. split; [reflexivity|]. now rewrite find_edited, Hf. }
  split; [|split].
  - intros H1 H2. now apply (keywords_refused id value st c).
  - exact Happ.
  - destruct (N.le_gt_cases (countWords value) 200) as [Hle|Hgt].
    + destruct (Happ (or_introl Hle)) as [_ Hfind].
      eexists. split; [exact Hfind|]. left. exact Hle.
    + destruct (N.le_gt_cases (countWords value) before) as [Hle'|Hgt'].
      * destruct (Happ (or_intror Hle')) as [_ Hfind].
        eexists. split; [exact Hfind|]. right. exact Hle'.
      * exists c. subst st'.
        rewrite (keywords_refused id value st c Hf Hgt Hgt').
        split; [exact Hf|]. right. apply N.le_refl.
Qed.

(** *** The cap along a session *)

Lemma processFile_customCriteria rd f st :
  customCriteria (snd (processFile rd f st)) = customCriteria st.
Proof.
  unfold processFile.
  destruct (MAX_FILE_SIZE <? File.size f); [reflexivity|].
  destruct (ext_is (ext_of f) (js "pdf"));
    [|destruct (ext_is (ext_of f) (js "docx"))];
    cbn [snd]; try destruct (rd f); reflexivity.
Qed.

Lemma handleReview_customCriteria host st :
  customCriteria (final (handleReview host st)) = customCriteria st
  /\ forall st', awaiting (handleReview host st) = Some st' ->
       customCriteria st' = customCriteria st.
Proof.
  unfold handleReview.
  destruct (negb (truthy (textInput st)) && _).
  - split; [reflexivity | discriminate].
  - destruct ((N.of_nat (length (selectedCriteria st)) =? 0) && _).
    + split; [reflexivity | discriminate].
    + destruct (analyzeDocument _ _ _ _ _ _ _) as [sent outcome].
      split; [reflexivity|]. intros st' E. now injection E as <-.
Qed.

Lemma capped_edit id field value l :
  capped l ->
  (field = keywords -> countWords value <= MAX_WORD_COUNT) ->
  capped (edited id field value l).
Proof.
  intros Hl Hv. unfold capped, edited. apply Forall_map.
  apply (Forall_impl _ (P := fun c =>
    countWords (CustomCriterion.keywords c) <= MAX_WORD_COUNT)); [|exact Hl].
  intros c Hc. destruct (has_id id c); [|exact Hc].
  destruct field; [exact Hc | now apply Hv].
Qed.

Lemma capped_change id field value st :
  capped (customCriteria st) ->
  capped (customCriteria (handleCustomCriterionChange id field value st)).
Proof.
  intros Hl. unfold handleCustomCriterionChange.
  destruct field.
  - fields. now apply capped_edit.
  - assert (Hp : countWords
                   match find (has_id id) (customCriteria st) with
                   | Some c =>
                       if truthy (CustomCriterion.keywords c)
                       then CustomCriterion.keywords c else []
                   | None => []
                   end <= MAX_WORD_COUNT).
    { destruct (find (has_id id) (customCriteria st)) eqn:E.
      - rewrite prevValue_keywords. apply find_some in E as [Hin _].
        unfold capped in Hl. rewrite Forall_forall in Hl. now apply Hl.
      - discriminate. }
    destruct ((MAX_WORD_COUNT <? countWords value) && _) eqn:E; [exact Hl|].
    fields. apply capped_edit; [exact Hl|]. intros _.
    apply andb_false_iff in E as [E|E]; apply N.ltb_ge in E; [exact E | lia].
Qed.

(** From the initial form on, no criterion ever holds more than 200 words
    of keywords. *)
Lemma reachable_capped st : reachable st -> capped (customCriteria st).
Proof.
  induction 1 as [fi | | | | st _ IH | | | | | | host st st' _ IH E | host st _ IH | ];
    try assumption.
  - repeat constructor; discriminate.
  - unfold toggleSelectAll. now destruct (allSelected st).
  - now apply capped_change.
  - now rewrite processFile_customCriteria.
  - now rewrite (proj2 (handleReview_customCriteria host st) st' E).
  - now rewrite (proj1 (handleReview_customCriteria host st)).
  - repeat constructor; discriminate.
Qed.

Lemma session_capped st : session st -> capped (customCriteria st).
Proof.
  induction 1 as [fi | | | | st _ IH | id field value st _ IH | | | | | | | ];
    try assumption.
  - repeat constructor; discriminate.
  - unfold toggleSelectAll. now destruct (allSelected st).
  - now apply capped_change.
  - repeat constructor; discriminate.
Qed.

(** C4. For an edit of the keywords of a custom criterion, on any state of
    a session: the count of words after the edit exceeds 200 only if it is
    strictly below the count before the edit (and on these states it does
    not exceed 200 at all); an edit whose count is above 200 and is no
    strict reduction is a no-op, the state and with it the keywords staying
    as they were; and an edit whose count is at most 200 is applied. *)
Theorem keywords_cap_on_edits id value st c :
  session st ->
  find (has_id id) (customCriteria st) = Some c ->
  let st' := handleCustomCriterionChange id keywords value st in
  let before := countWords (CustomCriterion.keywords c) in
  (exists c',
      find (has_id id) (customCriteria st') = Some c'
      /\ (MAX_WORD_COUNT < countWords (CustomCriterion.keywords c') ->
          countWords (CustomCriterion.keywords c') < before)
      /\ countWords (CustomCriterion.keywords c') <= MAX_WORD_COUNT)
  /\ (MAX_WORD_COUNT < countWords value -> ~ countWords value < before ->
      st' = st /\ find (has_id id) (customCriteria st') = Some c)
  /\ (countWords value <= MAX_WORD_COUNT ->
      find (has_id id) (customCriteria st')
      = Some (CustomCriterion.mk (CustomCriterion.id c) (CustomCriterion.name c)
                value))
  /\ before <= MAX_WORD_COUNT.
Proof.
  intros Hs Hf st' before.
  assert (Hb : before <= MAX_WORD_COUNT).
  { pose proof (session_capped st Hs) as H. unfold capped in H.
    rewrite Forall_forall in H. apply H.
    exact (proj1 (find_some _ _ Hf)). }
  destruct (keywords_edit_cap id value st c Hf) as (Hno & Happ & _).
  fold st' before in Hno, Happ. unfold MAX_WORD_COUNT in *.
  assert (Hrefused : 200 < countWords value -> st' = st)
    by (intros H; apply Hno; lia).
  split; [|split; [|split]].
  - destruct (N.le_gt_cases (countWords value) 200) as [Hle|Hgt].
    + destruct (Happ (or_introl Hle)) as [_ Hfind].
      eexists. split; [exact Hfind|].
      cbn [CustomCriterion.keywords]. split; lia.
    + exists c. rewrite (Hrefused Hgt). split; [exact Hf|].
      fold before. split; lia.
  - intros Hgt _. rewrite (Hrefused Hgt). split; [reflexivity | exact Hf].
  - intros Hle. exact (proj2 (Happ (or_introl Hle))).
  - exact Hb.
Qed.

Lemma keywords_cap_on_edits_witness :
  let st := initial None in
  let c := CustomCriterion.mk (js "1") [] [] in
  let long := words "depth" 201 in
  let short := js "depth and rigor" in
  find (has_id (js "1")) (customCriteria st) = Some c
  /\ (countWords long = 201 /\ countWords short = 3)
  /\ handleCustomCriterionChange (js "1") keywords long st = st
  /\ find (has_id (js "1"))
       (customCriteria (handleCustomCriterionChange (js "1") keywords short st))
     = Some (CustomCriterion.mk (js "1") [] short).
Proof.
  intros st c long short.
  assert (Hf : find (has_id (js "1")) (customCriteria st) = Some c)
    by (vm_compute; reflexivity).
  assert (Hl : countWords long = 201) by (vm_compute; reflexivity).
  assert (Hk : countWords short = 3) by (vm_compute; reflexivity).
  split; [exact Hf|]. split; [split; [exact Hl | exact Hk]|]. split.
  - refine (proj1 (proj1 (proj2
              (keywords_cap_on_edits (js "1") long st c (on_mount None) Hf)) _ _)).
    + rewrite Hl. vm_compute. reflexivity.
    + rewrite Hl. vm_compute. discriminate.
  - refine (proj1 (proj2 (proj2
              (keywords_cap_on_edits (js "1") short st c (on_mount None) Hf))) _).
    rewrite Hk. vm_compute. discriminate.
Defined.

(** * Further properties *)

(** ** Counting words *)

Lemma wordRuns_trimStart s : wordRuns (trimStart s) = wordRuns s.
Proof.
  unfold wordRuns. induction s as [|c r IH]; [reflexivity|].
  cbn [trimStart]. destruct (isWhiteSpace c) eqn:E; [|reflexivity].
  cbn [runs_from]. now rewrite E.
Qed.

Lemma trimStart_split s :
  exists w, s = w ++ trimStart s /\ blank w = true.
Proof.
  induction s as [|c r (w & E & Hw)]; [exists []; split; reflexivity|].
  cbn [trimStart]. destruct (isWhiteSpace c) eqn:Hc.
  - exists (c :: w). split; [cbn; now rewrite <- E | cbn; now rewrite Hc].
  - exists []. split; reflexivity.
Qed.

Lemma trimStart_head s c r : trimStart s = c :: r -> isWhiteSpace c = false.
Proof.
  induction s as [|x s IH]; [discriminate|].
  cbn [trimStart]. destruct (isWhiteSpace x) eqn:E; [exact IH|].
  intros H. injection H as <- _. exact E.
Qed.

Lemma blank_app a b : blank (a ++ b) = blank a && blank b.
Proof. apply forallb_app. Qed.

Lemma blank_rev a : blank (rev a) = blank a.
Proof.
  induction a as [|c a IH]; [reflexivity|].
  cbn [rev]. rewrite blank_app, IH. cbn. rewrite andb_true_r. apply andb_comm.
Qed.

Lemma runs_from_blank_tail b s w :
  blank w = true -> runs_from b (s ++ w) = runs_from b s.
Proof.
  intros Hw. revert b. induction s as [|c r IH]; intros b.
  - cbn [app]. revert b. induction w as [|x w IHw]; intros b; [reflexivity|].
    cbn in Hw. apply andb_true_iff in Hw as [Hx Hw].
    cbn [runs_from]. rewrite Hx. now apply IHw.
  - cbn [app runs_from]. destruct (isWhiteSpace c); now rewrite IH.
Qed.

Lemma runs_from_blank b w : blank w = true -> runs_from b w = 0.
Proof.
  intros Hw. exact (runs_from_blank_tail b [] w Hw).
Qed.

(** What [trim] takes off is white space on both sides. *)
Lemma trim_split s :
  exists w1 w2, s = w1 ++ trim s ++ w2 /\ blank w1 = true /\ blank w2 = true.
Proof.
  destruct (trimStart_split s) as (w1 & E1 & H1).
  destruct (trimStart_split (rev (trimStart s))) as (w2 & E2 & H2).
  exists w1, (rev w2). repeat split; [|exact H1 | now rewrite blank_rev].
  unfold trim. rewrite <- rev_app_distr, <- E2, rev_involutive. exact E1.
Qed.

Lemma wordRuns_trim s : wordRuns (trim s) = wordRuns s.
Proof.
  destruct (trim_split s) as (w1 & w2 & E & H1 & H2).
  rewrite E at 2. unfold wordRuns.
  rewrite app_assoc, (runs_from_blank_tail _ _ w2 H2).
  clear E. induction w1 as [|c w IH]; [reflexivity|].
  cbn in H1. apply andb_true_iff in H1 as [Hc Hw].
  cbn [app runs_from]. rewrite Hc. now apply IH.
Qed.


Lemma length_split_ws_from acc in_sep s :
  N.of_nat (length (split_ws_from acc in_sep s))
  = (if in_sep then runs_from false s else 1 + runs_from true s)
    + (if ends_in_sep in_sep s then 1 else 0).
Proof.
  revert acc in_sep. induction s as [|c r IH]; intros acc in_sep.
  - destruct in_sep; reflexivity.
  - cbn [split_ws_from runs_from ends_in_sep].
    destruct (isWhiteSpace c) eqn:Hc.
    + destruct in_sep.
      * now rewrite IH.
      * cbn [length]. rewrite Nat2N.inj_succ, IH. lia.
    + rewrite IH. destruct in_sep; lia.
Qed.

Lemma ends_in_sep_last b l x : ends_in_sep b (l ++ [x]) = isWhiteSpace x.
Proof.
  revert b. induction l as [|c l IH]; intros b; [reflexivity|].
  cbn [app ends_in_sep]. apply IH.
Qed.

Lemma trim_ends s c r :
  trim s = c :: r ->
  isWhiteSpace c = false /\ ends_in_sep false (trim s) = false.
Proof.
  unfold trim. intros E.
  destruct (trimStart_split (rev (trimStart s))) as (w2 & E2 & _).
  split.
  - apply (f_equal (@rev N)) in E2. rewrite rev_involutive, rev_app_distr, E in E2.
    cbn [app] in E2. exact (trimStart_head _ _ _ E2).
  - destruct (trimStart (rev (trimStart s))) as [|x v] eqn:Ev; [discriminate|].
    cbn [rev]. rewrite ends_in_sep_last. exact (trimStart_head _ _ _ Ev).
Qed.

(** The count is the number of maximal runs of units that are not white
    space. *)
Lemma countWords_wordRuns s : countWords s = wordRuns s.
Proof.
  rewrite <- (wordRuns_trim s). unfold countWords.
  destruct (trim s) as [|c r] eqn:E; [reflexivity|].
  cbn [truthy]. unfold split_ws. rewrite length_split_ws_from.
  destruct (trim_ends s c r E) as [Hc He]. rewrite E in He. rewrite He.
  unfold wordRuns. cbn [runs_from]. rewrite Hc. lia.
Qed.

(** X1. [countWords] counts the maximal runs of units that are not white
    space: white space before, after and between the words, of whatever
    length, adds nothing, and a text without such a unit has no word. *)
Theorem countWords_counts_runs (s w1 w2 : jsstring) :
  countWords s = wordRuns s
  /\ (blank w1 = true -> blank w2 = true ->
      countWords (w1 ++ s ++ w2) = countWords s)
  /\ (countWords s = 0 <-> blank s = true).
Proof.
  split; [apply countWords_wordRuns|]. split.
  - intros H1 H2. rewrite !countWords_wordRuns. unfold wordRuns.
    rewrite app_assoc, (runs_from_blank_tail _ _ w2 H2).
    clear H2. induction w1 as [|c w IH]; [reflexivity|].
    cbn in H1. apply andb_true_iff in H1 as [Hc Hw].
    cbn [app runs_from]. rewrite Hc. now apply IH.
  - rewrite countWords_wordRuns. unfold wordRuns. split.
    + induction s as [|c r IH]; [reflexivity|].
      cbn [runs_from blank forallb]. destruct (isWhiteSpace c); [exact IH|].
      intros H. lia.
    + apply runs_from_blank.
Qed.

Lemma countWords_counts_runs_witness :
  blank (js "  ") = true
  /\ blank [9; 10] = true
  /\ countWords (js "  " ++ js "peer  review" ++ [9; 10]) = countWords (js "peer  review").
Proof.
  assert (H1 : blank (js "  ") = true) by (vm_compute; reflexivity).
  assert (H2 : blank [9; 10] = true) by (vm_compute; reflexivity).
  split; [exact H1|]. split; [exact H2|].
  exact (proj1 (proj2 (countWords_counts_runs (js "peer  review") (js "  ") [9; 10]))
           H1 H2).
Defined.

(** X2. The count of two texts put together with a white-space unit
    between them is the sum of their counts. *)
Theorem countWords_additive (a b : jsstring) (c : N) :
  isWhiteSpace c = true ->
  countWords (a ++ c :: b) = countWords a + countWords b.
Proof.
  intros Hc. rewrite !countWords_wordRuns. unfold wordRuns.
  assert (H : forall i, runs_from i (a ++ c :: b) = runs_from i a + runs_from false b).
  { induction a as [|x a IH]; intros i.
    - cbn [app runs_from]. now rewrite Hc.
    - cbn [app runs_from]. destruct (isWhiteSpace x); rewrite IH; lia. }
  apply H.
Qed.

Lemma countWords_additive_witness :
  isWhiteSpace 32 = true
  /\ countWords (js "sound method" ++ 32 :: js "clear prose")
     = countWords (js "sound method") + countWords (js "clear prose").
Proof.
  assert (H : isWhiteSpace 32 = true) by reflexivity.
  split; [exact H|].
  exact (countWords_additive (js "sound method") (js "clear prose") 32 H).
Defined.

(** ** Selecting criteria *)

Lemma arr_includes_In l x : arr_includes l x = true <-> In x l.
Proof.
  unfold arr_includes. rewrite existsb_exists. split.
  - intros (y & Hin & E). apply str_eqb_eq in E. now subst.
  - intros H. exists x. split; [exact H | apply str_eqb_refl].
Qed.

Lemma arr_includes_app l1 l2 x :
  arr_includes (l1 ++ l2) x = arr_includes l1 x || arr_includes l2 x.
Proof. apply existsb_app. Qed.

Lemma str_eqb_sym a b : str_eqb a b = str_eqb b a.
Proof.
  destruct (str_eqb a b) eqn:E.
  - apply str_eqb_eq in E. subst. symmetry. apply str_eqb_refl.
  - destruct (str_eqb b a) eqn:E'; [|reflexivity].
    apply str_eqb_eq in E'. subst. now rewrite str_eqb_refl in E.
Qed.

Lemma arr_includes_removed l c d :
  arr_includes (filter (fun x => negb (str_eqb x c)) l) d
  = negb (str_eqb d c) && arr_includes l d.
Proof.
  induction l as [|x l IH]; [now rewrite andb_false_r|].
  cbn [filter]. unfold arr_includes in *. cbn [existsb].
  destruct (str_eqb x c) eqn:Ex; cbn [negb existsb].
  - rewrite IH. apply str_eqb_eq in Ex. subst x.
    destruct (str_eqb d c); reflexivity.
  - rewrite IH. destruct (str_eqb d x) eqn:Ed; [|reflexivity].
    apply str_eqb_eq in Ed. subst x. now rewrite Ex.
Qed.

Lemma filter_absent l c :
  arr_includes l c = false -> filter (fun x => negb (str_eqb x c)) l = l.
Proof.
  induction l as [|x l IH]; [reflexivity|].
  unfold arr_includes. cbn [existsb filter]. intros H.
  apply orb_false_iff in H as [Hx Hl].
  rewrite str_eqb_sym, Hx. cbn [negb]. f_equal. now apply IH.
Qed.

(** X3. Toggling a criterion flips whether it is selected and leaves every
    other criterion selected or not as it was. *)
Theorem toggleCriterion_flips (c d : jsstring) (st : App) :
  arr_includes (selectedCriteria (toggleCriterion c st)) d
  = if str_eqb d c then negb (arr_includes (selectedCriteria st) c)
    else arr_includes (selectedCriteria st) d.
Proof.
  unfold toggleCriterion. fields.
  destruct (arr_includes (selectedCriteria st) c) eqn:Hc.
  - rewrite arr_includes_removed. now destruct (str_eqb d c).
  - rewrite arr_includes_app. unfold arr_includes at 2. cbn [existsb].
    rewrite orb_false_r. destruct (str_eqb d c) eqn:Ed; cbn [negb].
    + apply orb_true_r.
    + apply orb_false_r.
Qed.

(** X4. Toggling twice a criterion that is not selected gives the state
    back; toggling twice one that is selected keeps the same criteria
    selected but moves that one to the end of the list. *)
Theorem toggleCriterion_twice (c : jsstring) (st : App) :
  (arr_includes (selectedCriteria st) c = false ->
     toggleCriterion c (toggleCriterion c st) = st)
  /\ (arr_includes (selectedCriteria st) c = true ->
      selectedCriteria (toggleCriterion c (toggleCriterion c st))
      = filter (fun x => negb (str_eqb x c)) (selectedCriteria st) ++ [c]).
Proof.
  split; intros Hc.
  - destruct st as [cat lvl sel cus txt fl dr rs fi]. cbn [selectedCriteria] in Hc.
    unfold toggleCriterion, setSelectedCriteria. fields.
    rewrite Hc, arr_includes_app. unfold arr_includes at 2. cbn [existsb].
    rewrite str_eqb_refl, orb_true_r, filter_app, (filter_absent sel c Hc).
    cbn [filter]. rewrite str_eqb_refl. cbn [negb]. now rewrite app_nil_r.
  - unfold toggleCriterion. fields. rewrite Hc.
    rewrite arr_includes_removed, str_eqb_refl. reflexivity.
Qed.

Lemma toggleCriterion_twice_witness :
  let both := toggleCriterion (js "Originality") sampleState in
  toggleCriterion (js "Referencing") (toggleCriterion (js "Referencing") sampleState)
  = sampleState
  /\ selectedCriteria both = [js "Clarity"; js "Originality"]
  /\ selectedCriteria (toggleCriterion (js "Clarity") (toggleCriterion (js "Clarity") both))
     = [js "Originality"; js "Clarity"].
Proof.
  intros both. split; [|split].
  - refine (proj1 (toggleCriterion_twice (js "Referencing") sampleState) _).
    vm_compute. reflexivity.
  - vm_compute. reflexivity.
  - refine (eq_trans (proj2 (toggleCriterion_twice (js "Clarity") both) _) _).
    + vm_compute. reflexivity.
    + vm_compute. reflexivity.
Defined.

(** X5. Select-all switches between the whole catalog, in its order, and
    the empty selection: it gives the catalog unless every criterion of the
    catalog is selected already, and it always flips [allSelected].  From a
    partial selection one press selects all, a second one clears. *)
Theorem toggleSelectAll_flips (st : App) :
  selectedCriteria (toggleSelectAll st)
  = (if allSelected st then [] else AVAILABLE_CRITERIA)
  /\ allSelected (toggleSelectAll st) = negb (allSelected st)
  /\ selectedCriteria (toggleSelectAll (toggleSelectAll st))
     = (if allSelected st then AVAILABLE_CRITERIA else []).
Proof.
  assert (H1 : forall s, allSelected (setSelectedCriteria (fun _ => []) s) = false).
  { intros s. unfold allSelected. fields. vm_compute. reflexivity. }
  assert (H2 : forall s,
             allSelected (setSelectedCriteria (fun _ => AVAILABLE_CRITERIA) s) = true).
  { intros s. unfold allSelected. fields. vm_compute. reflexivity. }
  destruct (allSelected st) eqn:E.
  - assert (T : toggleSelectAll st = setSelectedCriteria (fun _ => []) st)
      by (unfold toggleSelectAll; now rewrite E).
    rewrite T. split; [reflexivity|]. split; [apply H1|].
    unfold toggleSelectAll. now rewrite H1.
  - assert (T : toggleSelectAll st
                = setSelectedCriteria (fun _ => AVAILABLE_CRITERIA) st)
      by (unfold toggleSelectAll; now rewrite E).
    rewrite T. split; [reflexivity|]. split; [apply H2|].
    unfold toggleSelectAll. now rewrite H2.
Qed.

(** ** What the handlers leave alone *)

Lemma sameForm_refl st : sameForm st st.
Proof. repeat split. Qed.

Lemma processFile_sameForm rd f st : sameForm (snd (processFile rd f st)) st.
Proof.
  unfold processFile, sameForm.
  destruct (MAX_FILE_SIZE <? File.size f); [repeat split|].
  destruct (ext_is (ext_of f) (js "pdf"));
    [|destruct (ext_is (ext_of f) (js "docx"))];
    cbn [snd]; try destruct (rd f); repeat split.
Qed.

(** X6. Whatever the file and however the read ends, [processFile] changes
    at most the attached file and the error.  The file is replaced only
    after a read that succeeded, by a record with one of the two supported
    MIME types, and the error is cleared then; in every other case the
    attached file stays and a non-empty error is shown. *)
Theorem processFile_outcomes rd f st :
  let st' := snd (processFile rd f st) in
  sameForm st' st
  /\ feedback (reviewState st') = feedback (reviewState st)
  /\ isLoading (reviewState st') = isLoading (reviewState st)
  /\ ((exists url mime,
         rd f = onload url
         /\ (mime = pdfType \/ mime = docxType)
         /\ file st'
            = Some (FileData.mk mime (nth_error (split_on 44 url) 1) (File.name f))
         /\ error (reviewState st') = None)
      \/ (file st' = file st
          /\ exists m, error (reviewState st') = Some m /\ m <> [])).
Proof.
  intros st'. split; [apply processFile_sameForm|]. subst st'.
  assert (Hload : forall mime, mime = pdfType \/ mime = docxType ->
    feedback (reviewState (loaded mime rd f st)) = feedback (reviewState st)
    /\ isLoading (reviewState (loaded mime rd f st)) = isLoading (reviewState st)
    /\ ((exists url mime0,
           rd f = onload url
           /\ (mime0 = pdfType \/ mime0 = docxType)
           /\ file (loaded mime rd f st)
              = Some (FileData.mk mime0 (nth_error (split_on 44 url) 1) (File.name f))
           /\ error (reviewState (loaded mime rd f st)) = None)
        \/ (file (loaded mime rd f st) = file st
            /\ exists m, error (reviewState (loaded mime rd f st)) = Some m
                         /\ m <> []))).
  { intros mime Hm. unfold loaded. destruct (rd f) as [url|]; fields.
    - split; [reflexivity|]. split; [reflexivity|]. left.
      exists url, mime. repeat split. exact Hm.
    - split; [reflexivity|]. split; [reflexivity|]. right.
      split; [reflexivity|]. eexists. split; [reflexivity|].
      vm_compute. discriminate. }
  destruct (N.ltb_spec MAX_FILE_SIZE (File.size f)) as [Hbig|Hsmall].
  - rewrite processFile_oversized by assumption. fields.
    split; [reflexivity|]. split; [reflexivity|]. right.
    split; [reflexivity|]. eexists. split; [reflexivity|]. vm_compute. discriminate.
  - destruct (supported f) eqn:Hsup.
    + apply supported_cases in Hsup as [Hx|Hx].
      * rewrite processFile_pdf by assumption. cbn [snd]. apply Hload. now left.
      * rewrite processFile_docx by assumption. cbn [snd]. apply Hload. now right.
    + rewrite processFile_unsupported by assumption. fields.
      split; [reflexivity|]. split; [reflexivity|]. right.
      split; [reflexivity|]. eexists. split; [reflexivity|]. vm_compute. discriminate.
Qed.

Lemma handleReview_sameForm host st :
  sameForm (final (handleReview host st)) st
  /\ file (final (handleReview host st)) = file st
  /\ forall st', awaiting (handleReview host st) = Some st' ->
       sameForm st' st /\ file st' = file st
       /\ reviewState st' = mkReviewState true None JNull.
Proof.
  unfold handleReview, sameForm.
  destruct (negb (truthy (textInput st)) && _).
  - split; [repeat split|]. split; [reflexivity|]. intros st' E. discriminate.
  - destruct ((N.of_nat (length (selectedCriteria st)) =? 0) && _).
    + split; [repeat split|]. split; [reflexivity|]. intros st' E. discriminate.
    + destruct (analyzeDocument _ _ _ _ _ _ _) as [sent outcome].
      split; [repeat split|]. split; [reflexivity|].
      intros st' E. injection E as <-. repeat split.
Qed.

Lemma change_selectedCriteria id field value st :
  selectedCriteria (handleCustomCriterionChange id field value st)
  = selectedCriteria st.
Proof.
  unfold handleCustomCriterionChange.
  destruct field; [reflexivity|].
  destruct (_ && _); reflexivity.
Qed.

Lemma NoDup_catalog : NoDup AVAILABLE_CRITERIA.
Proof.
  assert (H : forall l : list jsstring,
             (fix nodup (l : list jsstring) : bool :=
                match l with
                | [] => true
                | x :: r => negb (arr_includes r x) && nodup r
                end) l = true -> NoDup l).
  { induction l as [|x r IH]; [constructor|].
    intros H. apply andb_true_iff in H as [Hx Hr].
    constructor; [|now apply IH].
    intros Hin. apply arr_includes_In in Hin. now rewrite Hin in Hx. }
  apply H. vm_compute. reflexivity.
Qed.

Lemma NoDup_toggle c l :
  NoDup l ->
  NoDup (if arr_includes l c then filter (fun x => negb (str_eqb x c)) l
         else l ++ [c]).
Proof.
  intros Hl. destruct (arr_includes l c) eqn:E.
  - now apply NoDup_filter.
  - apply NoDup_app; [exact Hl | repeat constructor; intros [] |].
    intros x Hx [<-|[]]. apply arr_includes_In in Hx. congruence.
Qed.

(** Every state the handlers reach one after the other is a state of a
    session. *)
Lemma reachable_session st : reachable st -> session st.
Proof.
  induction 1 as [fi | | | | | | | | rd f st _ IH | st _ IH |
                  host st st' _ IH E | host st _ IH | ];
    try (constructor; assumption).
  - unfold processFile.
    destruct (MAX_FILE_SIZE <? File.size f); [now constructor|].
    destruct (ext_is (ext_of f) (js "pdf"));
      [|destruct (ext_is (ext_of f) (js "docx"))];
      cbn [snd]; try destruct (rd f); repeat constructor; exact IH.
  - unfold clearFile. repeat constructor. exact IH.
  - revert E. unfold handleReview.
    destruct (negb (truthy (textInput st)) && _); [discriminate|].
    destruct ((N.of_nat (length (selectedCriteria st)) =? 0) && _);
      [discriminate|].
    destruct (analyzeDocument _ _ _ _ _ _ _) as [sent outcome].
    intros E. injection E as <-. now constructor.
  - unfold handleReview.
    destruct (negb (truthy (textInput st)) && _); [now constructor|].
    destruct ((N.of_nat (length (selectedCriteria st)) =? 0) && _);
      [now constructor|].
    destruct (analyzeDocument _ _ _ _ _ _ _) as [sent outcome].
    now constructor.
Qed.

Lemma session_sample : session sampleState.
Proof. unfold sampleState. repeat constructor. Qed.

(** X7. Along a session the selection never holds a criterion twice:
    whatever handlers have run since the form was mounted, and in whatever
    order the reader and the service have answered, the selected criteria
    are pairwise different. *)
Theorem selection_without_duplicates (st : App) :
  session st -> NoDup (selectedCriteria st).
Proof.
  induction 1 as [fi | | | c st _ IH | st _ IH | id field value st _ IH
                  | | | | | | | ];
    try assumption.
  - constructor.
  - unfold toggleCriterion. fields. now apply NoDup_toggle.
  - unfold toggleSelectAll. destruct (allSelected st); fields;
      [constructor | apply NoDup_catalog].
  - now rewrite change_selectedCriteria.
  - constructor.
Qed.

Lemma selection_without_duplicates_witness :
  NoDup (selectedCriteria
           (toggleSelectAll (toggleCriterion (js "Originality") sampleState))).
Proof.
  apply selection_without_duplicates.
  apply on_toggleSelectAll, on_toggleCriterion, session_sample.
Defined.

(** ** The two custom criteria *)

Lemma edited_ids id field value l :
  map CustomCriterion.id (edited id field value l) = map CustomCriterion.id l.
Proof.
  unfold edited. rewrite map_map. apply map_ext. intros c.
  destruct (has_id id c); [now destruct field | reflexivity].
Qed.

Lemma change_ids id field value st :
  map CustomCriterion.id (customCriteria (handleCustomCriterionChange id field value st))
  = map CustomCriterion.id (customCriteria st).
Proof.
  unfold handleCustomCriterionChange.
  destruct field; [apply edited_ids|].
  destruct (_ && _); [reflexivity | apply edited_ids].
Qed.

Lemma session_ids st :
  session st -> map CustomCriterion.id (customCriteria st) = [js "1"; js "2"].
Proof.
  induction 1 as [fi | | | | st _ IH | id field value st _ IH | | | | | | | ];
    try assumption.
  - reflexivity.
  - unfold toggleSelectAll. now destruct (allSelected st).
  - now rewrite change_ids.
  - reflexivity.
Qed.

(** X8. Along a session there are always exactly two custom criteria, with
    the identifiers 1 and 2 in this order, whenever the reader and the
    service answer.  An edit of the name of one of
    them changes that name and nothing else in the list, and so does an
    edit of its keywords to a value of at most 200 words. *)
Theorem two_custom_criteria (st : App) :
  session st ->
  exists a b,
    customCriteria st = [a; b]
    /\ CustomCriterion.id a = js "1" /\ CustomCriterion.id b = js "2"
    /\ (forall v,
          customCriteria (handleCustomCriterionChange (js "1") name v st)
          = [CustomCriterion.mk (js "1") v (CustomCriterion.keywords a); b])
    /\ (forall v,
          customCriteria (handleCustomCriterionChange (js "2") name v st)
          = [a; CustomCriterion.mk (js "2") v (CustomCriterion.keywords b)])
    /\ (forall v, countWords v <= 200 ->
          customCriteria (handleCustomCriterionChange (js "1") keywords v st)
          = [CustomCriterion.mk (js "1") (CustomCriterion.name a) v; b])
    /\ (forall v, countWords v <= 200 ->
          customCriteria (handleCustomCriterionChange (js "2") keywords v st)
          = [a; CustomCriterion.mk (js "2") (CustomCriterion.name b) v]).
Proof.
  intros Hr. pose proof (session_ids st Hr) as Hid.
  destruct (customCriteria st) as [|a [|b [|x l]]] eqn:E; try discriminate.
  cbn [map] in Hid. injection Hid as Ha Hb.
  exists a, b. split; [reflexivity|]. split; [exact Ha|]. split; [exact Hb|].
  assert (H11 : has_id (js "1") a = true)
    by (unfold has_id; rewrite Ha; apply str_eqb_refl).
  assert (H12 : has_id (js "1") b = false)
    by (unfold has_id; rewrite Hb; vm_compute; reflexivity).
  assert (H21 : has_id (js "2") a = false)
    by (unfold has_id; rewrite Ha; vm_compute; reflexivity).
  assert (H22 : has_id (js "2") b = true)
    by (unfold has_id; rewrite Hb; apply str_eqb_refl).
  assert (Hk : forall id v c, countWords v <= 200 ->
            find (has_id id) (customCriteria st) = Some c ->
            customCriteria (handleCustomCriterionChange id keywords v st)
            = edited id keywords v (customCriteria st)).
  { intros id v c Hv Hf.
    now rewrite (keywords_applied id v st c Hf (or_introl Hv)). }
  repeat split; intros v.
  - unfold handleCustomCriterionChange. fields. rewrite E.
    cbn [map]. rewrite H11, H12. cbn [with_field]. now rewrite Ha.
  - unfold handleCustomCriterionChange. fields. rewrite E.
    cbn [map]. rewrite H21, H22. cbn [with_field]. now rewrite Hb.
  - intros Hv. rewrite (Hk (js "1") v a Hv).
    + rewrite E. unfold edited. cbn [map]. rewrite H11, H12.
      cbn [with_field]. now rewrite Ha.
    + rewrite E. cbn [find]. now rewrite H11.
  - intros Hv. rewrite (Hk (js "2") v b Hv).
    + rewrite E. unfold edited. cbn [map]. rewrite H21, H22.
      cbn [with_field]. now rewrite Hb.
    + rewrite E. cbn [find]. now rewrite H21, H22.
Qed.

Lemma two_custom_criteria_witness :
  exists a b,
    customCriteria
      (handleCustomCriterionChange (js "2") name (js "Method") sampleState)
    = [a; b]
    /\ CustomCriterion.id a = js "1" /\ CustomCriterion.id b = js "2".
Proof.
  destruct (two_custom_criteria
              (handleCustomCriterionChange (js "2") name (js "Method") sampleState)
              (on_handleCustomCriterionChange _ _ _ _ session_sample))
    as (a & b & E & Ha & Hb & _).
  exists a, b. auto.
Defined.

(** X9. Along a session no custom criterion ever holds more than 200 words
    of keywords: the refusal of [handleCustomCriterionChange] keeps the cap
    from the first edit on, whatever else is done to the form and whenever
    the reader and the service answer. *)
Theorem keywords_capped_along_session (st : App) (c : CustomCriterion.t) :
  session st ->
  In c (customCriteria st) ->
  countWords (CustomCriterion.keywords c) <= MAX_WORD_COUNT.
Proof.
  intros Hr Hin. pose proof (session_capped st Hr) as H.
  unfold capped in H. rewrite Forall_forall in H. now apply H.
Qed.

Lemma keywords_capped_along_session_witness :
  let st :=
    handleCustomCriterionChange (js "1") keywords (js "rigor of the method")
      (handleCustomCriterionChange (js "2") name (js "Method") sampleState) in
  let c := CustomCriterion.mk (js "2") (js "Method") [] in
  In c (customCriteria st)
  /\ countWords (CustomCriterion.keywords c) <= MAX_WORD_COUNT.
Proof.
  intros st c.
  assert (Hin : In c (customCriteria st)) by (vm_compute; right; left; reflexivity).
  split; [exact Hin|].
  refine (keywords_capped_along_session st c _ Hin).
  unfold st. repeat apply on_handleCustomCriterionChange. exact session_sample.
Defined.

(** ** A run of [handleReview] *)

Lemma guard_hasContent st :
  negb (truthy (textInput st))
  && match file st with None => true | Some _ => false end = false ->
  hasContent st.
Proof.
  intros H. apply andb_false_iff in H as [H|H].
  - left. apply truthy_true. now destruct (truthy (textInput st)).
  - right. now destruct (file st).
Qed.

Lemma guard_hasCriteria st :
  (N.of_nat (length (selectedCriteria st)) =? 0)
  && (N.of_nat (length (activeCustomCriteria st)) =? 0) = false ->
  hasCriteria st.
Proof.
  intros H. apply andb_false_iff in H as [H|H].
  - left. intros E. rewrite E in H. discriminate.
  - right. destruct (activeCustomCriteria st) as [|c l] eqn:E; [discriminate|].
    assert (Hin : In c (activeCustomCriteria st)) by (rewrite E; now left).
    apply filter_In in Hin as [Hin Hc]. exists c. split; [exact Hin|].
    intros Ht. rewrite Ht in Hc. discriminate.
Qed.

(** X10. A run of [handleReview] sends one request or none, and it sends
    one exactly when there is content (text or a file) and a criterion (a
    selected one or a custom one with a name that is not blank); the
    request is the one built from the state.  When none is sent the state
    never shows as loading on account of the run. *)
Theorem handleReview_sends_iff (host : Host) (st : App) :
  (calls (handleReview host st) = [] \/ calls (handleReview host st) = [requestOf st])
  /\ (calls (handleReview host st) = [requestOf st]
      <-> hasContent st /\ hasCriteria st)
  /\ (calls (handleReview host st) = [] ->
      awaiting (handleReview host st) = None
      /\ isLoading (reviewState (final (handleReview host st)))
         = isLoading (reviewState st)).
Proof.
  destruct (negb (truthy (textInput st))
            && match file st with None => true | Some _ => false end) eqn:G1.
  - assert (H : handleReview host st
              = mkRun [] None
                  (setReviewState (with_error (Some contentError)) st))
      by (unfold handleReview; now rewrite G1).
    rewrite H. fields. split; [now left|]. split; [|now split].
    split; [discriminate|]. intros [Hc _].
    rewrite (hasContent_guard st Hc) in G1. discriminate.
  - destruct ((N.of_nat (length (selectedCriteria st)) =? 0)
              && (N.of_nat (length (activeCustomCriteria st)) =? 0)) eqn:G2.
    + assert (H : handleReview host st
                = mkRun [] None
                    (setReviewState (with_error (Some criteriaError)) st))
        by (unfold handleReview; now rewrite G1, G2).
      rewrite H. fields. split; [now left|]. split; [|now split].
      split; [discriminate|]. intros [_ Hk].
      rewrite (hasCriteria_guard st Hk) in G2. discriminate.
    + pose proof (guard_hasContent st G1) as Hc.
      pose proof (guard_hasCriteria st G2) as Hk.
      destruct (handleReview_sends host st Hc Hk) as [H _].
      rewrite H. fields. split; [now right|]. split; [tauto | discriminate].
Qed.

Lemma handleReview_sends_iff_witness :
  hasContent sampleState /\ hasCriteria sampleState
  /\ calls (handleReview silentHost sampleState) = [requestOf sampleState].
Proof.
  split; [exact sampleState_hasContent|]. split; [exact sampleState_hasCriteria|].
  exact (proj2 (proj1 (proj2 (handleReview_sends_iff silentHost sampleState)))
           (conj sampleState_hasContent sampleState_hasCriteria)).
Defined.

(** X11. Once a request was sent, the run ends with the loading flag off
    and in one of two ways: with no error and the parsed value as the
    feedback, which happens exactly when the call resolved to a non-empty
    text that parses; or with a non-empty error and no feedback.  The
    configuration, the text and the file are as before the run. *)
Theorem handleReview_ends (host : Host) (st : App) :
  hasContent st -> hasCriteria st ->
  let after := final (handleReview host st) in
  isLoading (reviewState after) = false
  /\ sameForm after st /\ file after = file st
  /\ ((error (reviewState after) = None
       /\ exists jsonText v,
            generateContent host (requestOf st) = resolves (Some jsonText)
            /\ jsonText <> [] /\ JSON_parse jsonText = Some v
            /\ feedback (reviewState after) = v)
      \/ (feedback (reviewState after) = JNull
          /\ (forall jsonText,
                generateContent host (requestOf st) = resolves (Some jsonText) ->
                jsonText = [] \/ JSON_parse jsonText = None)
          /\ exists m, error (reviewState after) = Some m /\ m <> [])).
Proof.
  intros Hc Hk after.
  destruct (handleReview_sameForm host st) as (Hf & Hfile & _).
  assert (Hrej : forall m,
    reviewState after = settle (rejected (errorMessage m)) ->
    isLoading (reviewState after) = false
    /\ feedback (reviewState after) = JNull
    /\ exists m', error (reviewState after) = Some m' /\ m' <> []).
  { intros m E. rewrite E, settle_rejected. cbn [isLoading feedback error].
    split; [reflexivity|]. split; [reflexivity|].
    eexists. split; [reflexivity|]. apply truthy_true, errorMessage_truthy. }
  pose proof (handleReview_final host st Hc Hk) as Hfin. fold after in Hfin.
  destruct (generateContent host (requestOf st)) as [m|[[|c r]|]] eqn:G.
  - destruct (Hrej _ Hfin) as (H1 & H2 & H3).
    split; [exact H1|]. split; [exact Hf|]. split; [exact Hfile|]. right.
    split; [exact H2|]. split; [discriminate | exact H3].
  - destruct (Hrej _ Hfin) as (H1 & H2 & H3).
    split; [exact H1|]. split; [exact Hf|]. split; [exact Hfile|]. right.
    split; [exact H2|]. split; [|exact H3].
    intros t E. injection E as <-. now left.
  - destruct (JSON_parse (c :: r)) as [v|] eqn:P.
    + rewrite Hfin. cbn [settle isLoading feedback error].
      split; [reflexivity|]. split; [exact Hf|]. split; [exact Hfile|]. left.
      split; [reflexivity|]. exists (c :: r), v. repeat split; congruence.
    + destruct (Hrej _ Hfin) as (H1 & H2 & H3).
      split; [exact H1|]. split; [exact Hf|]. split; [exact Hfile|]. right.
      split; [exact H2|]. split; [|exact H3].
      intros t E. injection E as <-. now right.
  - destruct (Hrej _ Hfin) as (H1 & H2 & H3).
    split; [exact H1|]. split; [exact Hf|]. split; [exact Hfile|]. right.
    split; [exact H2|]. split; [discriminate | exact H3].
Qed.

Lemma handleReview_ends_witness :
  isLoading (reviewState (final (handleReview incompleteHost sampleState))) = false
  /\ sameForm (final (handleReview incompleteHost sampleState)) sampleState.
Proof.
  pose proof (handleReview_ends incompleteHost sampleState sampleState_hasContent
                sampleState_hasCriteria) as H.
  cbv zeta in H. destruct H as (H1 & H2 & _). split; [exact H1 | exact H2].
Defined.

(** ** The message of a failure *)

(** X12. The message the [catch] block throws again is never empty and
    never contains [Rpc failed] or [xhr error], so a message of the
    transport never reaches the form as it is; and classifying a classified
    message changes nothing. *)
Theorem errorMessage_stable (message : option jsstring) :
  errorMessage message <> []
  /\ includes (errorMessage message) (js "Rpc failed") = false
  /\ includes (errorMessage message) (js "xhr error") = false
  /\ errorMessage (Some (errorMessage message)) = errorMessage message.
Proof.
  assert (Hfix : forall m,
            m <> [] ->
            includes m (js "Rpc failed") = false ->
            includes m (js "xhr error") = false ->
            errorMessage (Some m) = m).
  { intros m Hm H1 H2. unfold errorMessage.
    apply truthy_true in Hm. now rewrite Hm, H1, H2. }
  assert (Hc : connectionError <> []
               /\ includes connectionError (js "Rpc failed") = false
               /\ includes connectionError (js "xhr error") = false)
    by (vm_compute; repeat split; discriminate).
  assert (Hu : unexpectedError <> []
               /\ includes unexpectedError (js "Rpc failed") = false
               /\ includes unexpectedError (js "xhr error") = false)
    by (vm_compute; repeat split; discriminate).
  assert (H : errorMessage message <> []
              /\ includes (errorMessage message) (js "Rpc failed") = false
              /\ includes (errorMessage message) (js "xhr error") = false).
  { unfold errorMessage. destruct message as [m|]; [|exact Hu].
    destruct (truthy m) eqn:Hm; cbn [andb]; [|exact Hu].
    destruct (includes m (js "Rpc failed")) eqn:H1; cbn [orb]; [exact Hc|].
    destruct (includes m (js "xhr error")) eqn:H2; [exact Hc|].
    split; [now apply truthy_true | now split]. }
  destruct H as (Ha & Hb & Hd).
  split; [exact Ha|]. split; [exact Hb|]. split; [exact Hd|].
  now apply Hfix.
Qed.

(** ** What the form shows *)





Lemma criteriaHint_active st :
  criteriaHint st
  = (N.of_nat (length (selectedCriteria st)) =? 0)
    && (N.of_nat (length (activeCustomCriteria st)) =? 0).
Proof.
  unfold criteriaHint, activeCustomCriteria. f_equal.
  induction (customCriteria st) as [|c l IH]; [reflexivity|].
  cbn [forallb filter].
  destruct (trim (CustomCriterion.name c)) eqn:E; cbn [truthy str_eqb negb andb].
  - exact IH.
  - reflexivity.
Qed.

(** X14. The hint under the criteria is shown exactly when no criterion is
    there to review by: a submission with content is then refused with the
    select-a-criterion message and sends nothing, and when the hint is not
    shown a submission with content sends its request.  A refused
    submission passes through no loading state and ends with that message
    as the error of the review state, the loading flag and the feedback as
    they were. *)
Theorem criteriaHint_agrees_with_submission (host : Host) (st : App) :
  hasContent st ->
  (criteriaHint st = true ->
     handleReview host st
     = mkRun [] None (setReviewState (with_error (Some criteriaError)) st))
  /\ (criteriaHint st = false ->
      calls (handleReview host st) = [requestOf st])
  /\ (criteriaHint st = true ->
      calls (handleReview host st) = []
      /\ awaiting (handleReview host st) = None
      /\ reviewState (final (handleReview host st))
         = mkReviewState (isLoading (reviewState st)) (Some criteriaError)
             (feedback (reviewState st))).
Proof.
  intros Hc. rewrite criteriaHint_active.
  assert (H1 : (N.of_nat (length (selectedCriteria st)) =? 0)
               && (N.of_nat (length (activeCustomCriteria st)) =? 0) = true ->
     handleReview host st
     = mkRun [] None (setReviewState (with_error (Some criteriaError)) st)).
  { intros G. unfold handleReview. now rewrite (hasContent_guard st Hc), G. }
  split; [exact H1|]. split; intros G.
  - destruct (handleReview_sends host st Hc (guard_hasCriteria st G)) as [H _].
    now rewrite H.
  - rewrite (H1 G). fields. repeat split; reflexivity.
Qed.

Lemma criteriaHint_agrees_with_submission_witness :
  let bare := setTextInput (js "The essay argues that tides are lunar.") (initial None) in
  hasContent bare /\ criteriaHint bare = true
  /\ handleReview silentHost bare
     = mkRun [] None (setReviewState (with_error (Some criteriaError)) bare)
  /\ reviewState (final (handleReview silentHost bare))
     = mkReviewState false (Some criteriaError) JNull.
Proof.
  intros bare.
  assert (Hc : hasContent bare) by (left; vm_compute; discriminate).
  assert (Hh : criteriaHint bare = true) by (vm_compute; reflexivity).
  split; [exact Hc|]. split; [exact Hh|]. split.
  - exact (proj1 (criteriaHint_agrees_with_submission silentHost bare Hc) Hh).
  - exact (proj2 (proj2 (proj2 (proj2
             (criteriaHint_agrees_with_submission silentHost bare Hc)) Hh))).
Defined.

(** ** The extension and the payload of an upload *)

Lemma split_on_from_plain sep acc e :
  ~ In sep e -> split_on_from sep acc e = [rev acc ++ e].
Proof.
  revert acc. induction e as [|c e IH]; intros acc H.
  - cbn. now rewrite app_nil_r.
  - cbn [split_on_from]. destruct (N.eqb_spec c sep) as [->|Hne].
    + exfalso. apply H. now left.
    + rewrite IH by (intros Hin; apply H; now right).
      cbn [rev]. now rewrite <- app_assoc.
Qed.

Lemma pop_cons x l : l <> [] -> pop (x :: l) = pop l.
Proof. destruct l; [congruence | reflexivity]. Qed.

Lemma split_on_from_nonempty sep acc s : split_on_from sep acc s <> [].
Proof.
  revert acc. induction s as [|c s IH]; intros acc; cbn [split_on_from].
  - discriminate.
  - destruct (c =? sep); [discriminate | apply IH].
Qed.

Lemma pop_split_on_from sep acc stem e :
  ~ In sep e ->
  pop (split_on_from sep acc (stem ++ sep :: e)) = Some e.
Proof.
  intros He. revert acc. induction stem as [|c stem IH]; intros acc.
  - cbn [app split_on_from]. rewrite N.eqb_refl.
    rewrite pop_cons by apply split_on_from_nonempty.
    now rewrite split_on_from_plain.
  - cbn [app split_on_from]. destruct (c =? sep).
    + rewrite pop_cons by apply split_on_from_nonempty. apply IH.
    + apply IH.
Qed.

(** X16. The extension [processFile] goes by is what follows the last dot
    of the file name; a name without a dot is its own extension.  For an
    extension of Basic Latin characters its value is that text with the
    capitals lowered; for any extension, whether it counts as [pdf] or as
    [docx] does not depend on what stands before the last dot.  So
    [archive.tar.pdf] counts as PDF, a file named [PDF] is accepted, and a
    name that ends in a dot is never supported. *)
Theorem extension_is_after_last_dot (name e stem : jsstring) (size : N)
    (type : jsstring) :
  ~ In 46 e ->
  let dotted := File.mk (stem ++ 46 :: e) size type in
  let bare := File.mk e size type in
  (Forall (fun c => c < 128) e ->
     ext_of dotted = Some (toLowerCase e) /\ ext_of bare = Some (toLowerCase e))
  /\ ext_is (ext_of dotted) (js "pdf") = ext_is (ext_of bare) (js "pdf")
  /\ ext_is (ext_of dotted) (js "docx") = ext_is (ext_of bare) (js "docx")
  /\ supported dotted = supported bare
  /\ supported (File.mk (name ++ [46]) size type) = false.
Proof.
  intros He dotted bare.
  assert (Hd : ext_of dotted = Some (toLowerCase e)).
  { unfold dotted, ext_of, split_on. cbn [File.name].
    now rewrite pop_split_on_from. }
  assert (Hb : ext_of bare = Some (toLowerCase e)).
  { unfold bare, ext_of, split_on. cbn [File.name].
    now rewrite split_on_from_plain. }
  split; [intros _; split; assumption|].
  unfold supported. rewrite Hd, Hb.
  split; [reflexivity|]. split; [reflexivity|]. split; [reflexivity|].
  unfold ext_of, split_on. cbn [File.name].
  rewrite (pop_split_on_from 46 [] name []) by (intros []).
  vm_compute. reflexivity.
Qed.

Lemma extension_is_after_last_dot_witness :
  ~ In 46 (js "PDF")
  /\ Forall (fun c => c < 128) (js "PDF")
  /\ ext_of (File.mk (js "archive.tar" ++ 46 :: js "PDF") 10 (js "text/plain"))
     = Some (js "pdf")
  /\ supported (File.mk (js "archive.tar" ++ 46 :: js "PDF") 10 (js "text/plain"))
     = true
  /\ supported (File.mk (js "report" ++ [46]) 10 (js "application/pdf")) = false.
Proof.
  assert (H : ~ In 46 (js "PDF")).
  { vm_compute. intros [E|[E|[E|[]]]]; discriminate. }
  assert (B : Forall (fun c => c < 128) (js "PDF")).
  { vm_compute. repeat constructor. }
  pose proof (extension_is_after_last_dot (js "report") (js "PDF")
                (js "archive.tar") 10 (js "text/plain") H)
    as (Hv & _ & _ & Hs & _).
  pose proof (extension_is_after_last_dot (js "report") (js "PDF")
                (js "archive.tar") 10 (js "application/pdf") H)
    as (_ & _ & _ & _ & Hdot).
  split; [exact H|]. split; [exact B|]. split; [|split].
  - refine (eq_trans (proj1 (Hv B)) _). vm_compute. reflexivity.
  - refine (eq_trans Hs _). vm_compute. reflexivity.
  - exact Hdot.
Defined.

Lemma lower_unit_dot c : (lower_unit c =? 46) = (c =? 46).
Proof.
  unfold lower_unit.
  destruct ((65 <=? c) && (c <=? 90)) eqn:E; [|reflexivity].
  apply andb_true_iff in E as [E1 E2]. apply N.leb_le in E1, E2.
  destruct (N.eqb_spec (c + 32) 46), (N.eqb_spec c 46); try reflexivity; lia.
Qed.

Lemma split_on_from_lower acc s :
  split_on_from 46 (map lower_unit acc) (map lower_unit s)
  = map toLowerCase (split_on_from 46 acc s).
Proof.
  revert acc. induction s as [|c s IH]; intros acc.
  - cbn. unfold toLowerCase. now rewrite map_rev.
  - cbn [map split_on_from]. rewrite lower_unit_dot.
    destruct (c =? 46).
    + cbn [map]. unfold toLowerCase at 1. rewrite map_rev. f_equal.
      exact (IH []).
    + exact (IH (c :: acc)).
Qed.

Lemma pop_map (g : jsstring -> jsstring) l : pop (map g l) = option_map g (pop l).
Proof.
  induction l as [|x [|y l] IH]; [reflexivity | reflexivity |].
  cbn [map pop] in *. exact IH.
Qed.

Lemma ext_of_lower f :
  ext_of f = pop (split_on 46 (toLowerCase (File.name f))).
Proof.
  unfold ext_of, split_on, toLowerCase at 2.
  pose proof (split_on_from_lower [] (File.name f)) as L.
  change (map lower_unit []) with (@nil N) in L. rewrite L, pop_map.
  reflexivity.
Qed.

(** X17. The check of the extension does not see the case of the file
    name: two files whose names differ in the case of Basic Latin letters
    only have the same extension, are both supported or both not, and
    under the size limit are attached with the same MIME type. *)
Theorem extension_ignores_case (f g : File.t) :
  toLowerCase (File.name f) = toLowerCase (File.name g) ->
  ext_of f = ext_of g
  /\ supported f = supported g
  /\ (forall rd st, File.size f <= MAX_FILE_SIZE -> File.size g <= MAX_FILE_SIZE ->
        option_map FileData.mimeType (file (snd (processFile (fun _ => rd) f st)))
        = option_map FileData.mimeType (file (snd (processFile (fun _ => rd) g st)))).
Proof.
  intros H.
  assert (He : ext_of f = ext_of g) by (now rewrite !ext_of_lower, H).
  split; [exact He|].
  assert (Hs : supported f = supported g) by (unfold supported; now rewrite He).
  split; [exact Hs|].
  intros rd st Hf Hg. unfold processFile.
  apply N.ltb_ge in Hf, Hg. rewrite Hf, Hg, He.
  destruct (ext_is (ext_of g) (js "pdf"));
    [|destruct (ext_is (ext_of g) (js "docx"))];
    cbn [snd]; try destruct rd; reflexivity.
Qed.

Lemma extension_ignores_case_witness :
  let f := File.mk (js "Thesis.Final.DocX") 2048 (js "") in
  let g := File.mk (js "thesis.final.docx") 4096 (js "text/plain") in
  toLowerCase (File.name f) = toLowerCase (File.name g)
  /\ supported f = supported g.
Proof.
  intros f g.
  assert (H : toLowerCase (File.name f) = toLowerCase (File.name g))
    by (vm_compute; reflexivity).
  split; [exact H|].
  exact (proj1 (proj2 (extension_ignores_case f g H))).
Defined.

Lemma split_on_from_two sep acc h p :
  ~ In sep h -> ~ In sep p ->
  split_on_from sep acc (h ++ sep :: p) = [rev acc ++ h; p].
Proof.
  intros Hh Hp. revert acc. induction h as [|c h IH]; intros acc.
  - cbn [app split_on_from]. rewrite N.eqb_refl, app_nil_r.
    now rewrite split_on_from_plain.
  - cbn [app split_on_from]. destruct (N.eqb_spec c sep) as [->|Hne].
    + exfalso. apply Hh. now left.
    + rewrite IH by (intros Hin; apply Hh; now right).
      cbn [rev]. now rewrite <- app_assoc.
Qed.

Lemma absent_by_scan sep s :
  forallb (fun c => negb (c =? sep)) s = true -> ~ In sep s.
Proof.
  intros H Hin. rewrite forallb_forall in H. specialize (H sep Hin).
  now rewrite N.eqb_refl in H.
Qed.

(** X18. From the upload to the request: when the reader gives a data URL
    made of a header, a comma and a payload, the payload is what is
    attached, under the MIME type that goes with the extension
    ([application/pdf] for [pdf], the word-processing type for [docx],
    whatever type the browser gave the file), and a review asked for next
    sends exactly that as its first part, before the pasted text if there
    is any.  A result without a comma attaches the file with no data at
    all. *)
Theorem upload_payload_reaches_request rd f st (header payload : jsstring) :
  File.size f <= MAX_FILE_SIZE ->
  supported f = true ->
  ~ In 44 header -> ~ In 44 payload ->
  let st' := snd (processFile rd f st) in
  let mime := if ext_is (ext_of f) (js "pdf") then pdfType else docxType in
  (rd f = onload (header ++ 44 :: payload) ->
     file st' = Some (FileData.mk mime (Some payload) (File.name f))
     /\ Request.contents (requestOf st')
        = [Content.mk (js "user")
             (inlineData mime (Some payload)
              :: (if truthy (textInput st) then [text (textInput st)] else []))])
  /\ (rd f = onload payload ->
      file st' = Some (FileData.mk mime None (File.name f)))
  /\ (ext_is (ext_of f) (js "pdf") = false -> ext_is (ext_of f) (js "docx") = true)
  /\ pdfType <> docxType.
Proof.
  intros Hs Hsup Hh Hp st' mime.
  assert (E : st' = loaded mime rd f st
              /\ (ext_is (ext_of f) (js "pdf") = false ->
                  ext_is (ext_of f) (js "docx") = true)).
  { subst st' mime. apply supported_cases in Hsup.
    destruct (ext_is (ext_of f) (js "pdf")) eqn:Hx.
    - split; [now rewrite processFile_pdf | discriminate].
    - destruct Hsup as [Hy|Hy]; [discriminate|].
      split; [now rewrite processFile_docx | intros _; exact Hy]. }
  destruct E as (E & Hd).
  split; [|split; [|split]].
  - intros Hr. rewrite E. unfold loaded. rewrite Hr.
    unfold split_on. rewrite split_on_from_two by assumption.
    cbn [rev app nth_error]. fields. split; reflexivity.
  - intros Hr. rewrite E. unfold loaded. rewrite Hr.
    unfold split_on. rewrite split_on_from_plain by assumption.
    reflexivity.
  - exact Hd.
  - vm_compute. discriminate.
Qed.

Lemma upload_payload_reaches_request_witness :
  let f := File.mk (js "report.pdf") 2048 (js "text/plain") in
  let g := File.mk (js "Thesis.DOCX") 2048 [] in
  file (snd (processFile sampleReader f sampleState))
  = Some (FileData.mk (js "application/pdf") (Some (js "JVBERi0xLjQK"))
            (js "report.pdf"))
  /\ file (snd (processFile sampleReader g sampleState))
     = Some (FileData.mk
               (js "application/vnd.openxmlformats-officedocument.wordprocessingml.document")
               (Some (js "JVBERi0xLjQK")) (js "Thesis.DOCX")).
Proof.
  intros f g.
  assert (Hs : File.size f <= MAX_FILE_SIZE) by discriminate.
  assert (Hf : supported f = true) by (vm_compute; reflexivity).
  assert (Hg : supported g = true) by (vm_compute; reflexivity).
  assert (Hh : ~ In 44 (js "data:application/pdf;base64"))
    by (apply absent_by_scan; vm_compute; reflexivity).
  assert (Hp : ~ In 44 (js "JVBERi0xLjQK"))
    by (apply absent_by_scan; vm_compute; reflexivity).
  assert (Hr : forall x, sampleReader x
                = onload (js "data:application/pdf;base64" ++ 44 :: js "JVBERi0xLjQK"))
    by (intros x; vm_compute; reflexivity).
  split.
  - refine (eq_trans
              (proj1 (proj1 (upload_payload_reaches_request sampleReader f
                               sampleState (js "data:application/pdf;base64")
                               (js "JVBERi0xLjQK") Hs Hf Hh Hp) (Hr f))) _).
    vm_compute. reflexivity.
  - refine (eq_trans
              (proj1 (proj1 (upload_payload_reaches_request sampleReader g
                               sampleState (js "data:application/pdf;base64")
                               (js "JVBERi0xLjQK") Hs Hg Hh Hp) (Hr g))) _).
    vm_compute. reflexivity.
Defined.

(** ** The personas and the instruction *)

(** X19. The six personas are six different texts, and each agrees with
    what the form shows for its level: the block for a document type and a
    level carries the title of [getCritiqueLevelInfo] for that pair in
    capitals, the name of the level in brackets, and the path of the
    document type. *)
Theorem persona_matches_level_card (category : ReviewCategory)
    (level : CritiqueLevel) :
  includes (personaInstruction category level)
    (toUpperCase (LevelInfo.title (getCritiqueLevelInfo category level))) = true
  /\ includes (personaInstruction category level)
       (js "(" ++ CritiqueLevel_value level ++ js ")") = true
  /\ includes (personaInstruction category level)
       (match category with
        | UNDERGRADUATE => js "PATH A (UNDERGRADUATE)"
        | JOURNAL => js "PATH B (JOURNAL ARTICLE)"
        end) = true
  /\ (forall category' level',
        personaInstruction category' level' = personaInstruction category level ->
        category' = category /\ level' = level).
Proof.
  split; [destruct category, level; vm_compute; reflexivity|].
  split; [destruct category, level; vm_compute; reflexivity|].
  split; [destruct category, level; vm_compute; reflexivity|].
  intros category' level' E.
  destruct (str_eqb (personaInstruction category' level')
              (personaInstruction category level)) eqn:B;
    [|apply str_eqb_neq in B; contradiction].
  clear E.
  destruct category, level, category', level';
    (split; reflexivity) || (vm_compute in B; discriminate).
Qed.

Lemma persona_matches_level_card_witness :
  JOURNAL = JOURNAL /\ Ruthless = Ruthless.
Proof.
  exact (proj2 (proj2 (proj2 (persona_matches_level_card JOURNAL Ruthless)))
           JOURNAL Ruthless eq_refl).
Defined.

Lemma instruction_custom_rubric st :
  activeCustomCriteria st <> [] ->
  includes (Request.systemInstruction (requestOf st))
    (js "Custom Rubric Items:" ++ nl
     ++ formattedCustomCriteria (activeCustomCriteria st)) = true.
Proof.
  intros Ha.
  unfold requestOf, request, Request.systemInstruction, systemInstruction.
  apply (includes_pieces 21 1). cbn [skipn firstn concat].
  rewrite app_nil_r. unfold customRubricItems.
  replace (truthy (formattedCustomCriteria (activeCustomCriteria st))) with true;
    [reflexivity|].
  symmetry. unfold formattedCustomCriteria, activeCustomCriteria.
  rewrite filter_filter. fold (activeCustomCriteria st).
  destruct (activeCustomCriteria st) as [|c [|d l]]; [congruence| |];
    cbn [map join]; unfold js at 1; vm_compute (utf16_of_utf8 _); reflexivity.
Qed.

(** X20. The instruction of the request of a state names the document
    type and the critique level that are set, each between quotes on its
    line, and carries the persona block of that pair; a state with a custom
    criterion whose name is not blank also gets the custom rubric under its
    heading, and a state without one gets no heading. *)
Theorem instruction_echoes_configuration (st : App) :
  let text := Request.systemInstruction (requestOf st) in
  includes text
    (js "  1. Doc_Type: " ++ dq ++ ReviewCategory_value (category st) ++ dq ++ nl)
  = true
  /\ includes text
       (js "  2. Critique_Level: " ++ dq ++ CritiqueLevel_value (critiqueLevel st)
        ++ dq ++ nl) = true
  /\ includes text (personaInstruction (category st) (critiqueLevel st)) = true
  /\ (activeCustomCriteria st <> [] ->
        includes text
          (js "Custom Rubric Items:" ++ nl
           ++ formattedCustomCriteria (activeCustomCriteria st)) = true)
  /\ (activeCustomCriteria st = [] ->
        customRubricItems (formattedCustomCriteria (activeCustomCriteria st)) = []).
Proof.
  intros text. subst text.
  split; [|split; [|split; [|split]]].
  4: apply instruction_custom_rubric.
  all: unfold requestOf, request, Request.systemInstruction, systemInstruction.
  - apply (includes_pieces 7 5). cbn [skipn firstn concat].
    now rewrite app_nil_r.
  - apply (includes_pieces 12 5). cbn [skipn firstn concat].
    now rewrite app_nil_r.
  - apply (includes_pieces 25 1). cbn [skipn firstn concat].
    now rewrite app_nil_r.
  - intros Ha. unfold formattedCustomCriteria. rewrite Ha. reflexivity.
Qed.

Lemma instruction_echoes_configuration_witness :
  let st := handleCustomCriterionChange (js "1") name (js "Method") sampleState in
  activeCustomCriteria st <> []
  /\ includes (Request.systemInstruction (requestOf st))
       (js "Custom Rubric Items:" ++ nl
        ++ formattedCustomCriteria (activeCustomCriteria st)) = true.
Proof.
  intros st.
  assert (H : activeCustomCriteria st <> []) by (vm_compute; discriminate).
  split; [exact H|].
  exact (proj1 (proj2 (proj2 (proj2 (instruction_echoes_configuration st)))) H).
Defined.

Lemma startsWith_split s p : startsWith s p = true -> exists t, s = p ++ t.
Proof.
  revert s. induction p as [|a p IH]; intros s H.
  - now exists s.
  - destruct s as [|b s]; [discriminate|]. cbn [startsWith] in H.
    apply andb_true_iff in H as [E H]. apply N.eqb_eq in E. subst b.
    destruct (IH s H) as [t ->]. now exists t.
Qed.

Lemma includes_split s p :
  includes s p = true <-> exists a t, s = a ++ p ++ t.
Proof.
  split.
  - induction s as [|c s IH]; cbn [includes]; intros H.
    + rewrite orb_false_r in H. destruct (startsWith_split _ _ H) as [t E].
      now exists [], t.
    + apply orb_true_iff in H as [H|H].
      * destruct (startsWith_split _ _ H) as [t E]. now exists [], t.
      * destruct (IH H) as (a & t & ->). now exists (c :: a), t.
  - intros (a & t & ->). apply includes_app.
Qed.

Lemma includes_trans s m p :
  includes s m = true -> includes m p = true -> includes s p = true.
Proof.
  rewrite !includes_split. intros (a & t & ->) (a' & t' & ->).
  exists (a ++ a'), (t' ++ t). now rewrite <- !app_assoc.
Qed.

Lemma includes_join sep l x : In x l -> includes (join sep l) x = true.
Proof.
  intros H. apply includes_split. induction l as [|y l IH]; [destruct H|].
  destruct H as [->|H].
  - destruct l as [|z l].
    + exists [], []. cbn. now rewrite app_nil_r.
    + exists [], (sep ++ join sep (z :: l)). reflexivity.
  - destruct (IH H) as (a & t & E). destruct l as [|z l]; [destruct H|].
    cbn [join] in *. rewrite E. exists (y ++ sep ++ a), t.
    now rewrite <- !app_assoc.
Qed.

(** X21. Every custom criterion whose name is not blank has its line in
    the instruction of the request: a dash and the name, followed by the
    keywords as the focus when there are any.  A criterion with a blank
    name has no line in the custom rubric, whatever its keywords. *)
Theorem custom_criteria_lines (st : App) (c : CustomCriterion.t) :
  In c (customCriteria st) ->
  (trim (CustomCriterion.name c) <> [] ->
     includes (Request.systemInstruction (requestOf st)) (rubricLine c) = true)
  /\ (trim (CustomCriterion.name c) = [] ->
      ~ In c (activeCustomCriteria st)).
Proof.
  intros Hin. split; intros Hn.
  - assert (Ha : In c (activeCustomCriteria st)).
    { apply filter_In. split; [exact Hin|].
      destruct (str_eqb (trim (CustomCriterion.name c)) []) eqn:E; [|reflexivity].
      apply str_eqb_eq in E. contradiction. }
    assert (Hne : activeCustomCriteria st <> [])
      by (intros E; rewrite E in Ha; destruct Ha).
    apply (includes_trans _ _ _ (instruction_custom_rubric st Hne)).
    apply includes_split.
    assert (Hl : includes (formattedCustomCriteria (activeCustomCriteria st))
                   (rubricLine c) = true).
    { unfold formattedCustomCriteria. apply includes_join.
      apply in_map_iff. exists c. split; [reflexivity|].
      unfold activeCustomCriteria. rewrite filter_filter. exact Ha. }
    apply includes_split in Hl as (a & t & ->).
    exists (js "Custom Rubric Items:" ++ nl ++ a), t.
    now rewrite <- !app_assoc.
  - intros Ha. apply filter_In in Ha as [_ Ha].
    rewrite Hn in Ha. discriminate.
Qed.

Lemma custom_criteria_lines_witness :
  let st :=
    handleCustomCriterionChange (js "1") keywords (js "sampling, controls")
      (handleCustomCriterionChange (js "1") name (js "Method") sampleState) in
  let c := CustomCriterion.mk (js "1") (js "Method") (js "sampling, controls") in
  In c (customCriteria st)
  /\ trim (CustomCriterion.name c) <> []
  /\ includes (Request.systemInstruction (requestOf st))
       (js "- Method (Focus on: sampling, controls)") = true.
Proof.
  intros st c.
  assert (Hin : In c (customCriteria st)) by (vm_compute; left; reflexivity).
  assert (Hn : trim (CustomCriterion.name c) <> []) by (vm_compute; discriminate).
  split; [exact Hin|]. split; [exact Hn|].
  refine (eq_trans _ (proj1 (custom_criteria_lines st c Hin) Hn)).
  f_equal.
Defined.

(** ** The list of names as JSON *)

Lemma hex_round (d : N) : d < 16 -> hex_value (hex_digit d) = Some d.
Proof.
  intros H.
  assert (E : d = 0 \/ d = 1 \/ d = 2 \/ d = 3 \/ d = 4 \/ d = 5 \/ d = 6 \/ d = 7
              \/ d = 8 \/ d = 9 \/ d = 10 \/ d = 11 \/ d = 12 \/ d = 13
              \/ d = 14 \/ d = 15) by lia.
  repeat (destruct E as [->|E]; [reflexivity|]). subst d. reflexivity.
Qed.

Lemma hex_digits_of (c : N) :
  c < 65536 ->
  c / 4096 < 16
  /\ c / 4096 * 4096 + (c / 256) mod 16 * 256 + (c / 16) mod 16 * 16 + c mod 16 = c.
Proof.
  intros H.
  pose proof (N.div_mod c 16 ltac:(discriminate)) as E1.
  pose proof (N.div_mod (c / 16) 16 ltac:(discriminate)) as E2.
  pose proof (N.div_mod (c / 256) 16 ltac:(discriminate)) as E3.
  assert (D1 : c / 16 / 16 = c / 256) by (now rewrite N.Div0.div_div).
  assert (D2 : c / 256 / 16 = c / 4096) by (now rewrite N.Div0.div_div).
  rewrite D1 in E2. rewrite D2 in E3.
  split; [apply N.Div0.div_lt_upper_bound; lia | lia].
Qed.

Lemma parse_unicodeEscape c tail t rest :
  c < 65536 ->
  parse_chars tail = Some (t, rest) ->
  parse_chars (unicodeEscape c ++ tail) = Some (c :: t, rest).
Proof.
  intros Hc Ht. destruct (hex_digits_of c Hc) as [H1 H2].
  unfold unicodeEscape. cbn [app parse_chars].
  change (92 =? 34) with false. change (92 <? 32) with false.
  change (92 =? 92) with true. change (117 =? 117) with true. cbv iota.
  rewrite (hex_round _ H1).
  rewrite !hex_round by (apply N.mod_lt; discriminate).
  now rewrite Ht, H2.
Qed.

Lemma parse_literal_unit c tail t rest :
  (c =? 34) = false -> (c <? 32) = false -> (c =? 92) = false ->
  parse_chars tail = Some (t, rest) ->
  parse_chars (c :: tail) = Some (c :: t, rest).
Proof.
  intros H1 H2 H3 Ht. cbn [parse_chars]. now rewrite H1, H2, H3, Ht.
Qed.

Lemma parse_simple_escape e u tail t rest :
  (e =? 117) = false -> simple_escape e = Some u ->
  parse_chars tail = Some (t, rest) ->
  parse_chars (92 :: e :: tail) = Some (u :: t, rest).
Proof.
  intros H1 H2 Ht. cbn [parse_chars].
  change (92 =? 34) with false. change (92 <? 32) with false.
  change (92 =? 92) with true. cbv iota. now rewrite H1, H2, Ht.
Qed.

Lemma parse_quote_unit c tail t rest :
  c < 65536 ->
  parse_chars tail = Some (t, rest) ->
  parse_chars (quote_unit c ++ tail) = Some (c :: t, rest).
Proof.
  intros Hc Ht. unfold quote_unit.
  destruct (N.eqb_spec c 8) as [->|N8];
    [now apply (parse_simple_escape 98 8)|].
  destruct (N.eqb_spec c 9) as [->|N9];
    [now apply (parse_simple_escape 116 9)|].
  destruct (N.eqb_spec c 10) as [->|N10];
    [now apply (parse_simple_escape 110 10)|].
  destruct (N.eqb_spec c 12) as [->|N12];
    [now apply (parse_simple_escape 102 12)|].
  destruct (N.eqb_spec c 13) as [->|N13];
    [now apply (parse_simple_escape 114 13)|].
  destruct (N.eqb_spec c 34) as [->|N34];
    [now apply (parse_simple_escape 34 34)|].
  destruct (N.eqb_spec c 92) as [->|N92];
    [now apply (parse_simple_escape 92 92)|].
  destruct ((c <? 32) || isLeadingSurrogate c || isTrailingSurrogate c) eqn:E.
  - now apply parse_unicodeEscape.
  - apply orb_false_iff in E as [E _]. apply orb_false_iff in E as [E _].
    cbn [app]. apply parse_literal_unit; try assumption.
    + now apply N.eqb_neq.
    + now apply N.eqb_neq.
Qed.

Lemma quote_units_pair c d r :
  quote_units (c :: d :: r)
  = if isLeadingSurrogate c && isTrailingSurrogate d
    then c :: d :: quote_units r
    else quote_unit c ++ quote_units (d :: r).
Proof. reflexivity. Qed.

Lemma parse_quote_units_bounded n s rest :
  (length s <= n)%nat -> wellFormed s ->
  parse_chars (quote_units s ++ 34 :: rest) = Some (s, rest).
Proof.
  revert s. induction n as [|n IH]; intros s Hn Hw.
  - destruct s; [reflexivity | cbn in Hn; lia].
  - destruct s as [|c [|d r]]; [reflexivity | |].
    + cbn [quote_units]. apply parse_quote_unit; [now inversion Hw | reflexivity].
    + inversion Hw as [|? ? Hc Hw']. subst.
      rewrite quote_units_pair.
      destruct (isLeadingSurrogate c && isTrailingSurrogate d) eqn:E.
      * apply andb_true_iff in E as [E1 E2].
        unfold isLeadingSurrogate in E1. unfold isTrailingSurrogate in E2.
        apply andb_true_iff in E1 as [E1 _]. apply andb_true_iff in E2 as [E2 _].
        apply N.leb_le in E1, E2.
        cbn [app]. inversion Hw' as [|? ? Hd Hw'']. subst.
        apply parse_literal_unit;
          [apply N.eqb_neq; lia | apply N.ltb_ge; lia | apply N.eqb_neq; lia |].
        apply parse_literal_unit;
          [apply N.eqb_neq; lia | apply N.ltb_ge; lia | apply N.eqb_neq; lia |].
        apply IH; [cbn in Hn; lia | exact Hw''].
      * rewrite <- app_assoc. apply parse_quote_unit; [exact Hc|].
        apply IH; [cbn in Hn |- *; lia | exact Hw'].
Qed.

Lemma parse_quote_units s rest :
  wellFormed s -> parse_chars (quote_units s ++ 34 :: rest) = Some (s, rest).
Proof. apply (parse_quote_units_bounded (length s)). lia. Qed.

Lemma parse_value_quoted f s rest :
  wellFormed s ->
  parse_value (S f) (quoteJSONString s ++ rest) = Some (JString s, rest).
Proof.
  intros Hw. unfold quoteJSONString, dq. rewrite <- !app_assoc.
  cbn [app parse_value skip_ws].
  change (isJSONWhiteSpace 34) with false.
  change (34 =? 123) with false. change (34 =? 91) with false.
  change (34 =? 34) with true. cbv iota.
  now rewrite parse_quote_units.
Qed.

Lemma length_join_quoted l :
  (length l <= length (join [44%N] (map quoteJSONString l)))%nat.
Proof.
  induction l as [|x [|y l] IH]; [cbn; lia | |].
  - cbn [map join]. unfold quoteJSONString, dq. rewrite !length_app. cbn. lia.
  - change (map quoteJSONString (x :: y :: l))
      with (quoteJSONString x :: map quoteJSONString (y :: l)).
    change (join [44] (quoteJSONString x :: map quoteJSONString (y :: l)))
      with (quoteJSONString x ++ [44] ++ join [44] (map quoteJSONString (y :: l))).
    rewrite !length_app. cbn [length] in *. lia.
Qed.

Lemma parse_elements_more f s v r2 vs r3 :
  parse_value f s = Some (v, 44 :: r2) ->
  parse_elements f r2 = Some (vs, r3) ->
  parse_elements (S f) s = Some (v :: vs, r3).
Proof.
  intros H1 H2. cbn [parse_elements]. rewrite H1. cbn [skip_ws].
  change (isJSONWhiteSpace 44) with false. cbv iota. now rewrite H2.
Qed.

Lemma parse_elements_last f s v r2 :
  parse_value f s = Some (v, 93 :: r2) ->
  parse_elements (S f) s = Some ([v], r2).
Proof.
  intros H1. cbn [parse_elements]. rewrite H1. reflexivity.
Qed.

Lemma parse_elements_quoted l :
  l <> [] -> Forall wellFormed l ->
  forall f rest,
    (length l < f)%nat ->
    parse_elements f (join [44] (map quoteJSONString l) ++ 93 :: rest)
    = Some (map JString l, rest).
Proof.
  induction l as [|x l IH]; [congruence|].
  intros _ Hw f rest Hf. inversion Hw as [|? ? Hx Hl]. subst.
  destruct f as [|f]; [cbn in Hf; lia|].
  assert (Hg : exists g, f = S g)
    by (destruct f; [cbn in Hf; lia | eexists; reflexivity]).
  destruct Hg as [g Hg].
  destruct l as [|y l].
  - cbn [map join]. apply parse_elements_last.
    rewrite Hg. now apply parse_value_quoted.
  - change (map quoteJSONString (x :: y :: l))
      with (quoteJSONString x :: map quoteJSONString (y :: l)).
    change (join [44] (quoteJSONString x :: map quoteJSONString (y :: l)))
      with (quoteJSONString x ++ [44] ++ join [44] (map quoteJSONString (y :: l))).
    rewrite <- !app_assoc.
    apply (parse_elements_more f _ (JString x)
             (join [44] (map quoteJSONString (y :: l)) ++ 93 :: rest)).
    + rewrite Hg. now apply parse_value_quoted.
    + apply IH; [discriminate | exact Hl | cbn in Hf |- *; lia].
Qed.

Lemma parse_value_array_of_strings f t vs r' :
  parse_elements f (34 :: t) = Some (vs, r') ->
  parse_value (S f) (91 :: 34 :: t) = Some (JArray vs, r').
Proof.
  intros H. cbn [parse_value skip_ws].
  change (isJSONWhiteSpace 91) with false. change (91 =? 123) with false.
  change (91 =? 91) with true. change (isJSONWhiteSpace 34) with false.
  cbv iota. now rewrite H.
Qed.

(** X22. The list of criteria names goes into the instruction as JSON that
    reads back as it was: [JSON.parse] of [JSON.stringify] of the names is
    the array of exactly these strings, whatever quotes, commas, brackets,
    backslashes, control characters or lone surrogates the names contain. *)
Theorem names_survive_as_json (names : list jsstring) :
  Forall wellFormed names ->
  JSON_parse (JSON_stringify names) = Some (JArray (map JString names)).
Proof.
  intros Hw. destruct names as [|x l]; [reflexivity|].
  unfold JSON_parse, JSON_stringify.
  pose proof (length_join_quoted (x :: l)) as Hb.
  assert (Hq : exists r, join [44] (map quoteJSONString (x :: l)) = 34 :: r).
  { destruct l; cbn [map join]; unfold quoteJSONString, dq;
      cbn [app]; eexists; reflexivity. }
  destruct Hq as [r Hq].
  assert (He : parse_elements
                 (length ([91] ++ join [44] (map quoteJSONString (x :: l)) ++ [93]))
                 (34 :: r ++ [93])
               = Some (map JString (x :: l), [])).
  { change (34 :: r ++ [93]) with ((34 :: r) ++ [93]). rewrite <- Hq.
    apply parse_elements_quoted;
      [discriminate | exact Hw | rewrite !length_app; cbn [length] in Hb |- *; lia]. }
  rewrite Hq in He |- *.
  cbn [app] in He |- *.
  now rewrite (parse_value_array_of_strings _ _ _ _ He).
Qed.

Lemma names_survive_as_json_witness :
  JSON_parse (JSON_stringify [dq ++ js "Rigor" ++ dq; js "a,b]"; [55357; 10]])
  = Some (JArray [JString (dq ++ js "Rigor" ++ dq); JString (js "a,b]");
                  JString [55357; 10]]).
Proof.
  refine (names_survive_as_json [dq ++ js "Rigor" ++ dq; js "a,b]"; [55357; 10]] _).
  repeat constructor; vm_compute; reflexivity.
Defined.

(** ** What the schema asks for *)

Lemma validate_object_inv s v :
  type s = OBJECT -> validate s v = true ->
  exists ms,
    v = JObject ms
    /\ (forall k, In k (required s) -> exists x, get k ms = Some x)
    /\ (forall k sub x, In (k, sub) (properties s) -> get k ms = Some x ->
          validate sub x = true).
Proof.
  destruct s as [t props its req en d lo hi]. cbn [type required properties].
  intros -> H. destruct v; try discriminate.
  rewrite validate_object in H. apply andb_true_iff in H as [Hr Hp].
  rewrite forallb_forall in Hr, Hp.
  eexists. split; [reflexivity|]. split.
  - intros k Hk. specialize (Hr k Hk).
    destruct (get k members) as [x|]; [now exists x | discriminate].
  - intros k sub x Hin Hg. specialize (Hp (k, sub) Hin).
    cbn [fst snd] in Hp. now rewrite Hg in Hp.
Qed.

Lemma validate_array_inv s v it :
  type s = ARRAY -> items s = Some it -> validate s v = true ->
  exists vs, v = JArray vs /\ forallb (validate it) vs = true.
Proof.
  destruct s as [t props its req en d lo hi]. cbn [type items].
  intros -> -> H. destruct v; try discriminate.
  rewrite validate_array in H. apply andb_true_iff in H as [_ H].
  eexists. split; [reflexivity | exact H].
Qed.

Lemma feedbackPoint_has_point v :
  validate feedbackPointSchema v = true -> has "point" v = true.
Proof.
  intros H.
  destruct (validate_object_inv feedbackPointSchema v eq_refl H) as (ms & -> & Hr & _).
  destruct (Hr (js "point") (or_introl eq_refl)) as [x Hx].
  unfold has. now rewrite Hx.
Qed.

Lemma criterion_has_fields v :
  validate criterionSchema v = true ->
  has "criterion" v && has "score" v && has "visualBar" v
  && has "feedbackPoints" v
  && each (has "point") "feedbackPoints" v = true.
Proof.
  intros H.
  destruct (validate_object_inv criterionSchema v eq_refl H) as (ms & -> & Hr & Hp).
  destruct (Hr (js "criterion") (or_introl eq_refl)) as [x1 H1].
  destruct (Hr (js "score") (or_intror (or_introl eq_refl))) as [x2 H2].
  destruct (Hr (js "visualBar") (or_intror (or_intror (or_introl eq_refl))))
    as [x3 H3].
  destruct (Hr (js "feedbackPoints")
              (or_intror (or_intror (or_intror (or_introl eq_refl)))))
    as [x4 H4].
  pose proof (Hp (js "feedbackPoints") feedbackPointsSchema x4
                (or_intror (or_intror (or_intror (or_introl eq_refl)))) H4) as Hv.
  destruct (validate_array_inv feedbackPointsSchema x4 feedbackPointSchema
              eq_refl eq_refl Hv) as (vs & -> & Hvs).
  unfold has, each. rewrite H1, H2, H3, H4. cbn [andb].
  rewrite forallb_forall in Hvs |- *.
  intros p Hin. apply feedbackPoint_has_point. now apply Hvs.
Qed.

(** X23. What the schema sent to the service asks for is what the contract
    lists: a value that is valid against [responseSchema] is an object with
    [summary], [overallScore] and [reviews], every review has [criterion],
    [score], [visualBar] and [feedbackPoints], and every feedback point has
    [point]. *)
Theorem schema_asks_for_required_fields (v : json) :
  validate responseSchema v = true -> spec_requiredFields v = true.
Proof.
  intros H.
  destruct (validate_object_inv responseSchema v eq_refl H) as (ms & -> & Hr & Hp).
  destruct (Hr (js "summary") (or_introl eq_refl)) as [x1 H1].
  destruct (Hr (js "overallScore") (or_intror (or_introl eq_refl))) as [x2 H2].
  destruct (Hr (js "reviews") (or_intror (or_intror (or_introl eq_refl))))
    as [x3 H3].
  pose proof (Hp (js "reviews") reviewsSchema x3
                (or_intror (or_intror (or_introl eq_refl))) H3) as Hv.
  destruct (validate_array_inv reviewsSchema x3 criterionSchema eq_refl eq_refl Hv)
    as (vs & -> & Hvs).
  unfold spec_requiredFields, has at 1 2 3, each at 1.
  rewrite H1, H2, H3. cbn [andb].
  rewrite forallb_forall in Hvs |- *.
  intros r Hin. apply criterion_has_fields. now apply Hvs.
Qed.

Lemma schema_asks_for_required_fields_witness :
  spec_requiredFields (syntheticResponse [(js "Clarity", points 2)]) = true.
Proof.
  apply schema_asks_for_required_fields.
  vm_compute. reflexivity.
Defined.

(** ** The guard of [analyzeDocument] *)

(** X24. [analyzeDocument] calls the service exactly when it is given a
    non-empty text or a file.  Given neither it sends nothing and rejects
    with the provide-text message, whatever the service would have done;
    given one it sends the single request built from its arguments, with
    the file part before the text part. *)
Theorem analyzeDocument_needs_content (host : Host) (category : ReviewCategory)
    (selectedCriteria : list jsstring) (customCriteria : list CustomCriterion.t)
    (critiqueLevel : CritiqueLevel) (textContext : jsstring)
    (fileData : option FileData.t) :
  let run :=
    analyzeDocument host category selectedCriteria customCriteria critiqueLevel
      textContext fileData in
  (textContext = [] -> fileData = None ->
     run = ([], rejected (js "Please provide text or upload a document to review.")))
  /\ (textContext <> [] \/ fileData <> None ->
      fst run
      = [request category selectedCriteria customCriteria critiqueLevel
           textContext fileData]
      /\ parts textContext fileData
         = match fileData with
           | Some f => [inlineData (FileData.mimeType f) (FileData.data f)]
           | None => []
           end
           ++ match textContext with
              | [] => []
              | _ :: _ => [text textContext]
              end
      /\ parts textContext fileData <> [])
  /\ (fst run = [] <-> textContext = [] /\ fileData = None).
Proof.
  intros run. subst run.
  assert (H0 : textContext = [] -> fileData = None ->
               analyzeDocument host category selectedCriteria customCriteria
                 critiqueLevel textContext fileData
               = ([], rejected
                        (js "Please provide text or upload a document to review."))).
  { intros -> ->. reflexivity. }
  assert (H1 : textContext <> [] \/ fileData <> None ->
               parts textContext fileData <> []).
  { unfold parts. intros [H|H].
    - destruct textContext; [congruence|]. destruct fileData; discriminate.
    - destruct fileData; [discriminate | congruence]. }
  assert (H2 : textContext <> [] \/ fileData <> None ->
               fst (analyzeDocument host category selectedCriteria customCriteria
                      critiqueLevel textContext fileData)
               = [request category selectedCriteria customCriteria critiqueLevel
                    textContext fileData]).
  { intros H. apply H1 in H. unfold analyzeDocument.
    destruct (parts textContext fileData); [congruence | reflexivity]. }
  split; [exact H0|]. split.
  - intros H. split; [now apply H2|]. split; [|now apply H1].
    unfold parts. now destruct textContext.
  - split.
    + intros E. destruct textContext as [|c r].
      * destruct fileData as [f|]; [|now split].
        rewrite H2 in E by (right; discriminate). discriminate.
      * rewrite H2 in E by (left; discriminate). discriminate.
    + intros [Ht Hf]. now rewrite H0.
Qed.

Lemma analyzeDocument_needs_content_witness :
  analyzeDocument (throwingHost (js "Rpc failed")) JOURNAL [js "Clarity"] []
    Ruthless [] None
  = ([], rejected (js "Please provide text or upload a document to review.")).
Proof.
  exact (proj1 (analyzeDocument_needs_content (throwingHost (js "Rpc failed"))
                  JOURNAL [js "Clarity"] [] Ruthless [] None) eq_refl eq_refl).
Defined.

(** ** The score card *)

Lemma OverallScoreCard_cases score :
  (90 <= score /\ snd (OverallScoreCard score) = js "Exceptional")%Z
  \/ (80 <= score < 90 /\ snd (OverallScoreCard score) = js "Very Good")%Z
  \/ (70 <= score < 80 /\ snd (OverallScoreCard score) = js "Good")%Z
  \/ (60 <= score < 70 /\ snd (OverallScoreCard score) = js "Fair")%Z
  \/ (score < 60 /\ snd (OverallScoreCard score) = js "Needs Improvement")%Z.
Proof.
  unfold OverallScoreCard.
  destruct (Z.leb_spec 90 score); [left; now split|].
  destruct (Z.leb_spec 80 score); [right; left; split; [lia | reflexivity]|].
  destruct (Z.leb_spec 70 score); [right; right; left; split; [lia | reflexivity]|].
  destruct (Z.leb_spec 60 score);
    [right; right; right; left; split; [lia | reflexivity]|].
  right; right; right; right. now split.
Qed.

Lemma bandRank_values :
  bandRank (js "Needs Improvement") = 0 /\ bandRank (js "Fair") = 1
  /\ bandRank (js "Good") = 2 /\ bandRank (js "Very Good") = 3
  /\ bandRank (js "Exceptional") = 4.
Proof. vm_compute. repeat split. Qed.

(** X25. The label of the score card is fixed by the band of the score,
    with the steps at 60, 70, 80 and 90: Needs Improvement below 60
    (negative scores included), Fair from 60, Good from 70, Very Good from
    80, and Exceptional from 90 on (beyond 100 included).  So the label
    rises with the score through the five bands, and two scores have the
    same place exactly when they have the same label. *)
Theorem score_bands_are_monotone (a b : Z) :
  (a <= b)%Z ->
  let label score := snd (OverallScoreCard score) in
  (label a = js "Needs Improvement" <-> (a < 60)%Z)
  /\ (label a = js "Fair" <-> (60 <= a < 70)%Z)
  /\ (label a = js "Good" <-> (70 <= a < 80)%Z)
  /\ (label a = js "Very Good" <-> (80 <= a < 90)%Z)
  /\ (label a = js "Exceptional" <-> (90 <= a)%Z)
  /\ bandRank (label a) <= bandRank (label b)
  /\ bandRank (label b) <= 4
  /\ (bandRank (label a) = 0 <-> (a < 60)%Z)
  /\ (bandRank (label a) = 4 <-> (90 <= a)%Z)
  /\ (bandRank (label a) = bandRank (label b) <-> label a = label b).
Proof.
  intros Hab label. subst label. cbv beta.
  destruct bandRank_values as (R0 & R1 & R2 & R3 & R4).
  destruct (OverallScoreCard_cases a) as [[Ha Ea]|[[Ha Ea]|[[Ha Ea]|[[Ha Ea]|[Ha Ea]]]]];
    destruct (OverallScoreCard_cases b)
      as [[Hb Eb]|[[Hb Eb]|[[Hb Eb]|[[Hb Eb]|[Hb Eb]]]]];
    rewrite Ea, Eb, ?R0, ?R1, ?R2, ?R3, ?R4;
    try lia;
    repeat match goal with
           | |- _ /\ _ => split
           | |- _ <-> _ => split; intros E
           end;
    try lia; try reflexivity;
    apply (f_equal bandRank) in E; rewrite ?R0, ?R1, ?R2, ?R3, ?R4 in E; lia.
Qed.

Lemma score_bands_are_monotone_witness :
  (-5 <= 104)%Z
  /\ snd (OverallScoreCard (-5)) = js "Needs Improvement"
  /\ snd (OverallScoreCard 104) = js "Exceptional"
  /\ bandRank (snd (OverallScoreCard (-5))) <= bandRank (snd (OverallScoreCard 104)).
Proof.
  assert (H : (-5 <= 104)%Z) by discriminate.
  pose proof (score_bands_are_monotone (-5) 104 H) as (L0 & _ & _ & _ & _ & M & _).
  pose proof (score_bands_are_monotone 104 104 (Z.le_refl 104))
    as (_ & _ & _ & _ & L4 & _).
  split; [exact H|]. split; [|split].
  - apply (proj2 L0). reflexivity.
  - apply (proj2 L4). discriminate.
  - exact M.
Defined.

(** ** Drag and drop *)

Lemma processFile_isDragging rd f st :
  isDragging (snd (processFile rd f st)) = isDragging st.
Proof.
  unfold processFile.
  destruct (MAX_FILE_SIZE <? File.size f); [reflexivity|].
  destruct (ext_is (ext_of f) (js "pdf"));
    [|destruct (ext_is (ext_of f) (js "docx"))];
    cbn [snd]; try destruct (rd f); reflexivity.
Qed.

(** X26. A drop always ends the dragging state, whatever becomes of the
    file; it looks at the first dropped file only, as the picker looks at
    the first chosen one, and puts it through the same checks: dropping is
    leaving the drop zone and then choosing the files. *)
Theorem drop_is_leave_then_pick rd (files : list File.t) (st : App) :
  isDragging (snd (handleDrop rd files st)) = false
  /\ handleDrop rd files st = handleFileChange rd files (handleDragLeave st)
  /\ handleDrop rd files st = handleDrop rd (firstn 1 files) st
  /\ handleFileChange rd files st = handleFileChange rd (firstn 1 files) st
  /\ isDragging (snd (handleFileChange rd files (handleDragOver st))) = true.
Proof.
  destruct files as [|f rest]; cbn [handleDrop handleFileChange firstn snd].
  - repeat split.
  - rewrite !processFile_isDragging. repeat split.
Qed.
